(** * pwnlib.adb.protocol: the ADB host-protocol client

    A shallow embedding of [src/pwnlib/adb/protocol.py].

    Python 2 [str] values are byte strings; they are modelled by
    [string] (a list of 8-bit [ascii] characters).  Python integers
    are [Z].  Methods of [Host] run in a small state-and-exception
    monad over a [World] that holds the [Host] object's [_c] field and
    the store of [Connection] objects it refers to. *)

From Stdlib Require Import String Ascii ZArith NArith List Lia.
From Stdlib Require Import DecimalString.
From stdpp Require Import base list strings sorting.

Local Open Scope string_scope.

(** ** Byte strings *)

Module Bytes.

Fixpoint zeros (n : nat) : string :=
  match n with
  | O => ""
  | S k => String "0" (zeros k)
  end.

(** [s[:n]] *)
Fixpoint take (n : nat) (s : string) : string :=
  match n, s with
  | S k, String c s' => String c (take k s')
  | _, _ => ""
  end.

(** [s[n:]] *)
Fixpoint drop (n : nat) (s : string) : string :=
  match n, s with
  | S k, String _ s' => drop k s'
  | _, _ => s
  end.

Fixpoint concat (l : list string) : string :=
  match l with
  | [] => ""
  | s :: l' => s +:+ concat l'
  end.

(** [sep.join(l)] *)
Fixpoint join (sep : string) (l : list string) : string :=
  match l with
  | [] => ""
  | [s] => s
  | s :: l' => s +:+ sep +:+ join sep l'
  end.

Fixpoint all (p : ascii -> bool) (s : string) : bool :=
  match s with
  | "" => true
  | String c s' => p c && all p s'
  end.

End Bytes.

(** ** Exceptions and results *)

Inductive exn : Type :=
| EOFError      (* the channel closed before a read was satisfied *)
| ValueError    (* [int(val, 16)] on a malformed literal *)
| NameError     (* a global name that the module never binds *)
| OutOfFuel.    (* the bound of the [while True] loop was reached; [Host.list] never reaches it *)

Inductive result (A : Type) : Type :=
| Ok (a : A)
| Raise (e : exn).
Arguments Ok {A} a.
Arguments Raise {A} e.

(** ** Frame codec: [pack], [unpack], [Message] *)

Definition hexdigit (d : N) : ascii :=
  if (d <? 10)%N then ascii_of_N (48 + d) else ascii_of_N (87 + d).

(** Lowercase hexadecimal digits of [n], most significant first; [fuel]
    bounds the number of digits. *)
Fixpoint hex_of (fuel : nat) (n : N) : string :=
  match fuel with
  | O => ""
  | S f =>
      (if (n / 16 =? 0)%N then "" else hex_of f (n / 16))
      +:+ String (hexdigit (n mod 16)) ""
  end.

Definition hex (n : N) : string := hex_of (S (N.to_nat (N.log2 n))) n.

(** ['%04x' % val]: lowercase hexadecimal, zero-padded to a minimum
    width of four characters; the sign, if any, counts in the width.
    Values that need more than four characters are not truncated. *)
Definition fmt_04x (val : Z) : string :=
  let digits := hex (Z.abs_N val) in
  let sign := if (val <? 0)%Z then "-" else "" in
  sign +:+ Bytes.zeros (4 - String.length sign - String.length digits) +:+ digits.

(** [def pack(val): return '%04x' % val] *)
Definition pack (val : Z) : string := fmt_04x val.

Definition is_space (c : ascii) : bool :=
  let n := N_of_ascii c in ((9 <=? n) && (n <=? 13) || (n =? 32))%N.

Definition digit_value (c : ascii) : option N :=
  let n := N_of_ascii c in
  if ((48 <=? n) && (n <=? 57))%N then Some (n - 48)%N
  else if ((97 <=? n) && (n <=? 102))%N then Some (n - 87)%N
  else if ((65 <=? n) && (n <=? 70))%N then Some (n - 55)%N
  else None.

Definition is_hexdigit (c : ascii) : bool :=
  match digit_value c with Some _ => true | None => false end.

Fixpoint lstrip (s : string) : string :=
  match s with
  | String c s' => if is_space c then lstrip s' else s
  | "" => ""
  end.

(** Consumes the longest run of hexadecimal digits at the front of [s]. *)
Fixpoint digits (acc : N) (s : string) : N * string :=
  match s with
  | String c s' =>
      match digit_value c with
      | Some d => digits (16 * acc + d) s'
      | None => (acc, s)
      end
  | "" => (acc, s)
  end.

(** An optional sign in front of a literal. *)
Definition strip_sign (s : string) : bool * string :=
  match s with
  | String c r =>
      if Ascii.eqb c "-" then (true, r)
      else if Ascii.eqb c "+" then (false, r)
      else (false, s)
  | "" => (false, s)
  end.

(** An optional [0x] or [0X] in front of the digits. *)
Definition strip_0x (s : string) : string :=
  match s with
  | String c1 (String c2 r) =>
      if Ascii.eqb c1 "0" && (Ascii.eqb c2 "x" || Ascii.eqb c2 "X")
      then r else s
  | _ => s
  end.

(** [int(val, 16)] on a [str]: optional surrounding whitespace, an
    optional sign, an optional [0x]/[0X] prefix and at least one
    hexadecimal digit of either case; anything else is a [ValueError]. *)
Definition int16 (val : string) : result Z :=
  let '(neg, s2) := strip_sign (lstrip val) in
  let s3 := strip_0x s2 in
  match s3 with
  | String c _ =>
      if is_hexdigit c then
        let '(v, rest) := digits 0 s3 in
        if Bytes.all is_space rest
        then Ok (if neg then (- Z.of_N v)%Z else Z.of_N v)
        else Raise ValueError
      else Raise ValueError
  | "" => Raise ValueError
  end.

(** [def unpack(val): return int(val, 16)] *)
Definition unpack (val : string) : result Z := int16 val.

Definition OKAY : string := "OKAY".
Definition FAIL : string := "FAIL".

Module Message.

(** [Message(string)]; [__str__] and [__flat__] give the frame. *)
Record t := Message { string_ : string }.

Definition __str__ (self : t) : string :=
  fmt_04x (Z.of_nat (String.length (string_ self))) +:+ string_ self.

Definition __flat__ (self : t) : string := __str__ self.

End Message.

(** ** The byte-stream channel and the world *)

(** Modelled from the spec: the channel class [pwnlib.tubes.remote.remote]
    is not part of this file.  Following the spec's "reliable ordered
    byte channel" with [send], [recvExactly], [recvUntilClose] and
    [close]: a channel holds the bytes the peer delivers, in order
    ([incoming]), the writes made so far, oldest first ([sent]), and
    whether [close()] was called on it. *)
Record Channel := mkChannel {
  incoming : string;
  sent : list string;
  closed : bool
}.

(** A [Connection] object is referred to by its position in the store. *)
Definition handle := nat.

(** Modelled from the spec: the ambient [context] object of
    [pwnlib.context], not part of this file: the server's host and
    port and the current device, read when a call is made. *)
Record Context := mkContext {
  adb_host : string;
  adb_port : Z;
  device : option string
}.

(** The [Host] object's fields ([host], [port], [_c]), the store of
    [Connection] objects ([conns]) and, for each connection the server
    will accept from now on, the bytes it delivers on it ([pending]). *)
Record World := mkWorld {
  host : string;
  port : Z;
  _c : option handle;
  conns : list Channel;
  pending : list string
}.

Definition M (A : Type) : Type := World -> result A * World.

#[global] Instance ret : MRet M := fun A (a : A) w => (Ok a, w).

Definition raise {A} (e : exn) : M A := fun w => (Raise e, w).

#[global] Instance bind : MBind M := fun A B (f : A -> M B) (m : M A) w =>
  match m w with
  | (Ok a, w') => f a w'
  | (Raise e, w') => (Raise e, w')
  end.

(** [try: m  except EOFError: h] *)
Definition try_except_EOFError {A} (m h : M A) : M A :=
  fun w =>
    match m w with
    | (Raise EOFError, w') => h w'
    | r => r
    end.

Definition lift {A} (r : result A) : M A := fun w => (r, w).

Definition get_c : M (option handle) := fun w => (Ok (_c w), w).

Definition set_c (v : option handle) : M unit :=
  fun w => (Ok tt, mkWorld (host w) (port w) v (conns w) (pending w)).

(** Runs [f] on the channel behind handle [h] and stores the channel
    it leaves. *)
Definition on_chan {A} (h : handle) (f : Channel -> result A * Channel) : M A :=
  fun w =>
    match conns w !! h with
    | Some ch =>
        let '(r, ch') := f ch in
        (r, mkWorld (host w) (port w) (_c w) (<[h := ch']> (conns w)) (pending w))
    | None => (Raise EOFError, w)
    end.

(** [s] split after its first [n] bytes, when it has that many. *)
Fixpoint splitn (n : nat) (s : string) : option (string * string) :=
  match n with
  | O => Some ("", s)
  | S k =>
      match s with
      | String c s' =>
          match splitn k s' with
          | Some (a, b) => Some (String c a, b)
          | None => None
          end
      | "" => None
      end
  end.

Definition byte_of (n : Z) : ascii := ascii_of_N (Z.to_N (n mod 256)).

(** Modelled from the spec: [pwnlib.util.packing.p32] is not part of this
    file; the spec's "32-bit length" field, least significant byte
    first (the packing default), of [n] reduced modulo [2^32]. *)
Definition p32 (n : Z) : string :=
  String (byte_of n)
    (String (byte_of (n / 256))
       (String (byte_of (n / 65536))
          (String (byte_of (n / 16777216)) ""))).

(** The integer a byte string denotes, least significant byte first. *)
Fixpoint le_decode (s : string) : Z :=
  match s with
  | "" => 0
  | String c s' => Z.of_N (N_of_ascii c) + 256 * le_decode s'
  end.

Inductive flat_arg : Type :=
| FStr (s : string)
| FInt (n : Z).

(** Modelled from the spec: [flat(args, ..., word_size=32)] of the packing
    library: strings go out as they are, integers as 32-bit fields. *)
Fixpoint flat (args : list flat_arg) : string :=
  match args with
  | [] => ""
  | FStr s :: r => s +:+ flat r
  | FInt n :: r => p32 n +:+ flat r
  end.

(** [str(n)] for an integer. *)
Definition str_int (n : Z) : string := NilZero.string_of_int (Z.to_int n).

Module Connection.

(** Modelled from the spec: the constructor [Connection(host, port)]
    (inherited) opens a new channel to the server; the server's bytes
    for it are the next entry of [pending] (none left: a peer that
    closes at once). *)
Definition __init__ (host_ : string) (port_ : Z) : M handle :=
  fun w =>
    let script := match pending w with s :: _ => s | [] => "" end in
    (Ok (length (conns w)),
     mkWorld (host w) (port w) (_c w)
       (conns w ++ [mkChannel script [] false]) (tail (pending w))).

(** Modelled from the spec: [send(data)] writes the bytes. *)
Definition send (self : handle) (data : string) : M unit :=
  on_chan self (fun ch =>
    (Ok tt, mkChannel (incoming ch) (sent ch ++ [data]) (closed ch))).

(** Modelled from the spec: [recvn(n)] receives exactly [n] bytes;
    [EOFError] when the peer closes first ([n <= 0] receives nothing). *)
Definition recvn (self : handle) (n : Z) : M string :=
  on_chan self (fun ch =>
    match splitn (Z.to_nat n) (incoming ch) with
    | Some (a, b) => (Ok a, mkChannel b (sent ch) (closed ch))
    | None => (Raise EOFError, ch)
    end).

(** Modelled from the spec: [recvall()] returns everything the peer
    delivers until it closes. *)
Definition recvall (self : handle) : M string :=
  on_chan self (fun ch =>
    (Ok (incoming ch), mkChannel "" (sent ch) (closed ch))).

(** Modelled from the spec: [close()]. *)
Definition close (self : handle) : M unit :=
  on_chan self (fun ch =>
    (Ok tt, mkChannel (incoming ch) (sent ch) true)).

(** Modelled from the spec: [flat(...)] on a channel sends the
    flattened arguments. *)
Definition flat (self : handle) (args : list flat_arg) : M unit :=
  send self (flat args).

(** Modelled from the spec: [u32()] on a channel receives four bytes
    and decodes them. *)
Definition u32 (self : handle) : M Z :=
  b ← recvn self 4; mret (le_decode b).

(** [def adb_send(self, message)] *)
Definition adb_send (self : handle) (message : string) : M string :=
  send self (Message.__str__ (Message.Message message));;
  recvn self 4.

(** [def unpack(self)] *)
Definition unpack (self : handle) : M Z :=
  b ← recvn self 4; lift (unpack b).

(** Bytes still to come on the channel (bounds the listing loop). *)
Definition remaining (self : handle) : M nat :=
  on_chan self (fun ch => (Ok (String.length (incoming ch)), ch)).

End Connection.

(** ** The [Host] class *)

(** What a method hands back: [None], a [str], the pair of integers of
    [version], a list of names, or a [Connection] object. *)
Inductive value : Type :=
| VNone
| VStr (s : string)
| VPair (a b : Z)
| VList (l : list string)
| VConn (h : handle).

(** The [argv] of [execute]: one [str] or a list of them. *)
Inductive argv_t : Type :=
| ArgStr (s : string)
| ArgList (l : list string).

(** [a or b] where [None] and the empty string are false. *)
Definition or_ (a b : option string) : option string :=
  match a with
  | Some "" => b
  | Some _ => a
  | None => b
  end.

(** ['%s' % x] *)
Definition fmt_s (x : option string) : string :=
  match x with
  | Some s => s
  | None => "None"
  end.

(** [sorted(files)] on byte strings: ascending in the bytewise
    lexicographic order. *)
Definition sorted (files : list string) : list string :=
  merge_sort String.le files.

Module Host.

Section WithContext.

(** The ambient configuration, and the shell-quoting collaborator
    [pwnlib.util.misc.sh_string], which is not part of this file and is
    taken as a parameter. *)
Variable context : Context.
Variable sh_string : string -> string.

(** [def __init__(self)]; [scripts] is what the server will deliver on
    the connections opened from now on. *)
Definition __init__ (scripts : list string) : World :=
  mkWorld (adb_host context) (adb_port context) None [] scripts.

(** [@property def c(self)] *)
Definition c : M handle :=
  o ← get_c;
  match o with
  | Some h => mret h
  | None =>
      h ← (fun w => Connection.__init__ (host w) (port w) w);
      set_c (Some h);;
      mret h
  end.

(** The module binds no name [log] (it imports only [functools],
    [context], [sh_string], [p32] and [remote]), so evaluating
    [log.error] raises [NameError] before anything is logged. *)
Definition log_error (msg : string) : M unit := raise NameError.

(** [def send(self, ...): return self.c.adb_send(...)] *)
Definition send (message : string) : M string :=
  h ← c; Connection.adb_send h message.

(** [def unpack(self, ...): return self.c.unpack(...)] *)
Definition unpack : M Z :=
  h ← c; Connection.unpack h.

(** [def recvl(self)] *)
Definition recvl : M string :=
  length ← (h ← c; Connection.unpack h);
  h ← c; Connection.recvn h length.

(** [def transport(self, serial=None)] *)
Definition transport (serial : option string) : M value :=
  let msg := "host:transport:" +:+ fmt_s (or_ serial (device context)) in
  r ← send msg;
  (if String.eqb r FAIL
   then log_error "Could not set transport to %r"
   else mret tt);;
  mret VNone.

(** The tail shared by both decorators:
    [if self._c: self._c.close(); self._c = None]. *)
Definition close_if_open : M unit :=
  o ← get_c;
  match o with
  | Some h => Connection.close h;; set_c None
  | None => mret tt
  end.

(** [def autoclose(fn)] *)
Definition autoclose (fn : M value) : M value :=
  rv ← fn;
  close_if_open;;
  mret rv.

(** [def with_transport(fn)] *)
Definition with_transport (fn : M value) : M value :=
  transport None;;
  rv ← fn;
  close_if_open;;
  mret rv.

(** [@autoclose def kill(self)] *)
Definition kill : M value :=
  autoclose (
    try_except_EOFError (send "host:kill";; mret tt) (mret tt);;
    mret VNone).

(** [def version(self)] *)
Definition version : M value :=
  response ← send "host:version";
  if String.eqb response OKAY then
    a ← (h ← c; Connection.unpack h);
    b ← (h ← c; Connection.unpack h);
    mret (VPair a b)
  else
    log_error "Could not fetch version";;
    mret VNone.

(** [@autoclose def devices(self, long=False)] *)
Definition devices (long : bool) : M value :=
  autoclose (
    let msg := "host:devices" in
    let msg := if long then msg +:+ "-l" else msg in
    response ← send msg;
    if String.eqb response "OKAY" then
      s ← recvl; mret (VStr s)
    else
      log_error "Could not enumerate devices";;
      mret VNone).

(** [@autoclose @with_transport def execute(self, argv)] *)
Definition execute (argv : argv_t) : M value :=
  autoclose (with_transport (
    transport (device context);;
    let argv := match argv with ArgStr s => [s] | ArgList l => l end in
    let argv := map sh_string argv in
    let cmd := "exec:" +:+ Bytes.join " " argv in
    r ← send cmd;
    if String.eqb OKAY r then
      rv ← get_c;
      set_c None;;
      mret (match rv with Some h => VConn h | None => VNone end)
    else mret VNone)).

(** The body shared by the fire-and-read commands:
    [self.send(cmd); return self.c.recvall()]. *)
Definition send_recvall (cmd : string) : M value :=
  autoclose (with_transport (
    send cmd;;
    s ← (h ← c; Connection.recvall h);
    mret (VStr s))).

Definition remount : M value := send_recvall "remount:".
Definition root : M value := send_recvall "root:".
Definition unroot : M value := send_recvall "unroot:".
Definition disable_verity : M value := send_recvall "disable-verity:".
Definition enable_verity : M value := send_recvall "enable-verity:".
Definition reconnect : M value := send_recvall "reconnect:".
Definition reboot : M value := send_recvall "reboot:".
Definition reboot_bootloader : M value := send_recvall "reboot:bootloader".

(** [name in ('', '.', '..')] *)
Definition ignored (name : string) : bool :=
  String.eqb name "" || String.eqb name "." || String.eqb name "..".

(** The [while True] loop of [list]; every round receives at least four
    bytes, so [fuel] rounds are enough once [fuel] exceeds the bytes
    left on the channel. *)
Fixpoint list_while (fuel : nat) (files : list string) : M (list string) :=
  match fuel with
  | O => raise OutOfFuel
  | S fuel' =>
      response ← (h ← c; Connection.recvn h 4);
      if negb (String.eqb response "DENT") then mret files
      else
        mode ← (h ← c; Connection.u32 h);
        size ← (h ← c; Connection.u32 h);
        time ← (h ← c; Connection.u32 h);
        name ← (n ← (h ← c; Connection.u32 h); h ← c; Connection.recvn h n);
        if ignored name then list_while fuel' files
        else list_while fuel' (files ++ [name])
  end.

(** [@autoclose @with_transport def write(self, path, mode=0o755)] *)
Definition write (path : string) (mode : Z) : M value :=
  autoclose (with_transport (
    r ← send "sync:";
    if String.eqb OKAY r then
      (h ← c;
       Connection.flat h
         [FStr "SEND"; FInt (Z.of_nat (String.length path));
          FStr (path +:+ "," +:+ str_int mode)]);;
      (h ← c; Connection.send h path);;
      s ← (h ← c; Connection.recvall h);
      mret (VStr s)
    else mret VNone)).

(** [@autoclose @with_transport def read(self, path)] *)
Definition read (path : string) : M value :=
  autoclose (with_transport (
    r ← send "sync:";
    if String.eqb OKAY r then
      (h ← c;
       Connection.send h ("RECV" +:+ p32 (Z.of_nat (String.length path))));;
      (h ← c; Connection.send h path);;
      s ← (h ← c; Connection.recvall h);
      mret (VStr s)
    else mret VNone)).

(** [@autoclose @with_transport def list(self, path)] *)
Definition list (path : string) : M value :=
  autoclose (with_transport (
    r ← send "sync:";
    if String.eqb FAIL r then mret VNone
    else
      (h ← c;
       Connection.flat h
         [FStr "LIST"; FInt (Z.of_nat (String.length path)); FStr path]);;
      fuel ← (h ← c; Connection.remaining h);
      files ← list_while (S fuel) [];
      mret (VList (sorted files)))).

End WithContext.

End Host.

(** The command catalogue, for statements over every command. *)
Inductive method : Type :=
| Kill
| Version
| Devices (long : bool)
| Transport (serial : option string)
| Execute (argv : argv_t)
| Remount | Root | Unroot | DisableVerity | EnableVerity
| Reconnect | Reboot | RebootBootloader
| List (path : string)
| Write (path : string) (mode : Z)
| Read (path : string).

Definition call (context : Context) (sh_string : string -> string)
    (m : method) : M value :=
  match m with
  | Kill => Host.kill
  | Version => Host.version
  | Devices long => Host.devices long
  | Transport serial => Host.transport context serial
  | Execute argv => Host.execute context sh_string argv
  | Remount => Host.remount context
  | Root => Host.root context
  | Unroot => Host.unroot context
  | DisableVerity => Host.disable_verity context
  | EnableVerity => Host.enable_verity context
  | Reconnect => Host.reconnect context
  | Reboot => Host.reboot context
  | RebootBootloader => Host.reboot_bootloader context
  | List path => Host.list context path
  | Write path mode => Host.write context path mode
  | Read path => Host.read context path
  end.

(** The commands declared [@autoclose], with or without
    [@with_transport] below it. *)
Definition autoclosed (m : method) : bool :=
  match m with
  | Version | Transport _ => false
  | _ => true
  end.

(** The commands declared [@with_transport]. *)
Definition transport_scoped (m : method) : bool :=
  match m with
  | Kill | Version | Devices _ | Transport _ => false
  | _ => true
  end.

(** A world whose [Host] holds the connection stored last. *)
Definition focus (w : World) (pre : list Channel) (ch : Channel)
    (pe : list string) : World :=
  mkWorld (host w) (port w) (Some (length pre)) (pre ++ [ch]) pe.

(** The world right after the [c] property opened a connection. *)
Definition opened (w : World) : World :=
  focus w (conns w)
    (mkChannel (match pending w with s :: _ => s | [] => "" end) [] false)
    (tail (pending w)).

(** The frame that selects the transport. *)
Definition transport_frame (context : Context) (serial : option string) : string :=
  Message.__str__
    (Message.Message ("host:transport:" +:+ fmt_s (or_ serial (device context)))).

(** The frame [execute] sends for [argv]. *)
Definition exec_frame (sh_string : string -> string) (argv : argv_t) : string :=
  Message.__str__
    (Message.Message
       ("exec:" +:+
        Bytes.join " "
          (map sh_string (match argv with ArgStr s => [s] | ArgList l => l end)))).

(** Among the connections singled out by [P], only the one the [Host]
    holds may be open. *)
Definition tidy (P : handle -> Prop) (w : World) : Prop :=
  forall (h : handle) (ch : Channel),
    P h -> conns w !! h = Some ch -> closed ch = false -> _c w = Some h.

(** [m] keeps the world tidy, however it ends. *)
Definition preserves {A} (P : handle -> Prop) (m : M A) : Prop :=
  forall (w w' : World) (r : result A),
    tidy P w -> m w = (r, w') -> tidy P w'.

(** A channel operation that never reopens a closed channel. *)
Definition keeps_closed {A} (f : Channel -> result A * Channel) : Prop :=
  forall ch : Channel, closed ch = true -> closed (snd (f ch)) = true.

Definition is_execute (m : method) : bool :=
  match m with
  | Execute _ => true
  | _ => false
  end.

(** The connections a call that starts in [w] answers for: the ones it
    opens, and the one the [Host] holds when it starts. *)
Definition in_charge (w : World) (h : handle) : Prop :=
  length (conns w) <= h \/ _c w = Some h.

(** A configuration and a quoting function to run examples with. *)
Definition example_context : Context :=
  mkContext "localhost" 5037 (Some "emulator-5554").

Definition no_quoting (s : string) : string := s.

(** The frame that opens the sync sub-protocol. *)
Definition sync_frame : string := Message.__str__ (Message.Message "sync:").

(** One directory entry of a listing. *)
Record dent := mkDent {
  d_mode : Z;
  d_size : Z;
  d_time : Z;
  d_name : string
}.

(** The bytes [list] reads for one entry: the tag [DENT], three 32-bit
    fields, the 32-bit length of the name, the name. *)
Definition encode_dent (d : dent) : string :=
  "DENT" +:+ p32 (d_mode d) +:+ p32 (d_size d) +:+ p32 (d_time d)
  +:+ p32 (Z.of_nat (String.length (d_name d))) +:+ d_name d.

Fixpoint encode_dents (ds : list dent) : string :=
  match ds with
  | [] => ""
  | d :: ds' => encode_dent d +:+ encode_dents ds'
  end.

(** The names [list] keeps, in the order received. *)
Definition kept_names (ds : list dent) : list string :=
  List.filter (fun name => negb (Host.ignored name)) (map d_name ds).

(** The world a with-transport command leaves when it returns: the
    connection it opened is stored closed and the [Host] holds none. *)
Definition released (w : World) (left : string) (writes : list string)
    (more : list string) : World :=
  mkWorld (host w) (port w) None
    (conns w ++ [mkChannel left writes true]) more.

(** [m] only receives on the held connection: it leaves what was
    written, and whether the connection is closed, as they were. *)
Definition reads {A} (m : M A) : Prop :=
  forall (w : World) (pre : list Channel) (ch : Channel) (pe : list string),
    exists (r : result A) (ch' : Channel),
      m (focus w pre ch pe) = (r, focus w pre ch' pe)
      /\ sent ch' = sent ch /\ closed ch' = closed ch.

(** [m] receives on the held connection without ever exhausting a
    loop bound, and never adds to what is left to receive. *)
Definition receives {A} (m : M A) : Prop :=
  forall (w : World) (pre : list Channel) (ch : Channel) (pe : list string),
    exists (r : result A) (ch' : Channel),
      m (focus w pre ch pe) = (r, focus w pre ch' pe)
      /\ r <> Raise OutOfFuel
      /\ String.length (incoming ch') <= String.length (incoming ch).

(** The frame that asks for a listing. *)
Definition list_request (path : string) : string :=
  flat [FStr "LIST"; FInt (Z.of_nat (String.length path)); FStr path].

(** The command string of each fire-and-read command. *)
Definition command_string (m : method) : option string :=
  match m with
  | Remount => Some "remount:"
  | Root => Some "root:"
  | Unroot => Some "unroot:"
  | DisableVerity => Some "disable-verity:"
  | EnableVerity => Some "enable-verity:"
  | Reconnect => Some "reconnect:"
  | Reboot => Some "reboot:"
  | RebootBootloader => Some "reboot:bootloader"
  | _ => None
  end.

(** * Properties *)

(** ** Byte strings *)

Module BytesFacts.
Import Bytes.

Lemma app_nil_l (s : string) : "" +:+ s = s.
Proof. reflexivity. Qed.

Lemma app_cons (c : ascii) (s t : string) :
  String c s +:+ t = String c (s +:+ t).
Proof. reflexivity. Qed.

Lemma app_nil_r (s : string) : s +:+ "" = s.
Proof.
  induction s as [|c s IH]; [reflexivity|].
  rewrite app_cons. now f_equal.
Qed.

Lemma app_assoc (a b c : string) : (a +:+ b) +:+ c = a +:+ (b +:+ c).
Proof.
  induction a as [|x a IH]; [reflexivity|].
  rewrite !app_cons. now f_equal.
Qed.

Lemma length_app (a b : string) :
  String.length (a +:+ b) = String.length a + String.length b.
Proof.
  induction a as [|x a IH]; [reflexivity|].
  rewrite app_cons. cbn. now f_equal.
Qed.

Lemma length_zeros (n : nat) : String.length (zeros n) = n.
Proof. induction n as [|n IH]; cbn; [reflexivity | now f_equal]. Qed.

Lemma take_app (a b : string) : take (String.length a) (a +:+ b) = a.
Proof.
  induction a as [|x a IH]; [now destruct b|].
  rewrite app_cons. cbn. now f_equal.
Qed.

Lemma drop_app (a b : string) : drop (String.length a) (a +:+ b) = b.
Proof.
  induction a as [|x a IH]; [reflexivity|].
  rewrite app_cons. exact IH.
Qed.

Lemma all_app (p : ascii -> bool) (a b : string) :
  all p (a +:+ b) = all p a && all p b.
Proof.
  induction a as [|x a IH]; [reflexivity|].
  rewrite app_cons. cbn. rewrite IH. now rewrite andb_assoc.
Qed.

End BytesFacts.

(** ** Frame codec *)

Module Codec.
Import Bytes BytesFacts.

Lemma nibble_cases (d : N) :
  (d < 16)%N -> In d [0; 1; 2; 3; 4; 5; 6; 7; 8; 9; 10; 11; 12; 13; 14; 15]%N.
Proof. intros H. cbn. lia. Qed.

Lemma digit_value_hexdigit (d : N) :
  (d < 16)%N -> digit_value (hexdigit d) = Some d.
Proof.
  intros H. apply nibble_cases in H. cbn in H.
  repeat (destruct H as [<- | H]; [reflexivity|]). contradiction.
Qed.

(** A hexadecimal digit is neither white space, nor a sign, nor the
    [x] of a prefix. *)
Lemma hexdigit_not_other (c : ascii) :
  is_hexdigit c = true ->
  is_space c = false /\ Ascii.eqb c "-" = false /\ Ascii.eqb c "+" = false
  /\ Ascii.eqb c "x" = false /\ Ascii.eqb c "X" = false.
Proof.
  destruct c as [[] [] [] [] [] [] [] []]; vm_compute; intros H;
    solve [discriminate H | repeat split].
Qed.

Lemma digits_app (a b : string) (acc : N) :
  all is_hexdigit a = true ->
  digits acc (a +:+ b) = digits (fst (digits acc a)) b.
Proof.
  revert acc. induction a as [|c a IH]; intros acc H; [reflexivity|].
  rewrite app_cons. cbn in H |- *. unfold is_hexdigit in H.
  destruct (digit_value c) as [d|]; [|discriminate H].
  apply IH. exact H.
Qed.

Lemma digits_all_hex (a : string) (acc : N) :
  all is_hexdigit a = true -> snd (digits acc a) = "".
Proof.
  revert acc. induction a as [|c a IH]; intros acc H; [reflexivity|].
  cbn in H |- *. unfold is_hexdigit in H.
  destruct (digit_value c) as [d|]; [|discriminate H].
  apply IH. exact H.
Qed.

Lemma digits_zeros (k : nat) (s : string) :
  digits 0 (zeros k +:+ s) = digits 0 s.
Proof. induction k as [|k IH]; [reflexivity | exact IH]. Qed.

Lemma all_hex_zeros (k : nat) : all is_hexdigit (zeros k) = true.
Proof. induction k as [|k IH]; [reflexivity | exact IH]. Qed.

Lemma all_hex_hex_of (f : nat) (n : N) : all is_hexdigit (hex_of f n) = true.
Proof.
  revert n. induction f as [|f IH]; intros n; [reflexivity|].
  cbn [hex_of]. rewrite all_app.
  assert (Hd : all is_hexdigit (String (hexdigit (n mod 16)) "") = true).
  { cbn. unfold is_hexdigit. rewrite digit_value_hexdigit; [reflexivity|].
    apply N.mod_lt. discriminate. }
  rewrite Hd. destruct (n / 16 =? 0)%N; [reflexivity|]. now rewrite IH.
Qed.

(** Reading back the digits of [n] gives [n], as soon as the fuel
    covers its digits. *)
Lemma digits_hex_of (f : nat) (n : N) :
  (n < 16 ^ N.of_nat (S f))%N -> fst (digits 0 (hex_of (S f) n)) = n.
Proof.
  revert n. induction f as [|f IH]; intros n Hn.
  - assert (H16 : (n < 16)%N) by exact Hn.
    cbn [hex_of]. rewrite N.div_small by exact H16.
    rewrite N.mod_small by exact H16. cbn [N.eqb].
    rewrite app_nil_l. cbn [digits].
    rewrite digit_value_hexdigit by exact H16. reflexivity.
  - remember (S f) as f1 eqn:Ef1. cbn [hex_of].
    assert (Hd : (n mod 16 < 16)%N) by (apply N.mod_lt; discriminate).
    destruct (n / 16 =? 0)%N eqn:Eq.
    + apply N.eqb_eq in Eq. rewrite app_nil_l. cbn [digits].
      rewrite digit_value_hexdigit by exact Hd. cbn.
      pose proof (N.div_mod n 16 ltac:(discriminate)) as Hdm. lia.
    + rewrite digits_app by apply all_hex_hex_of.
      subst f1. rewrite IH.
      * cbn [digits]. rewrite digit_value_hexdigit by exact Hd. cbn.
        pose proof (N.div_mod n 16 ltac:(discriminate)) as Hdm. lia.
      * apply N.Div0.div_lt_upper_bound.
        replace (N.of_nat (S (S f))) with (N.succ (N.of_nat (S f))) in Hn by lia.
        rewrite N.pow_succ_r' in Hn. exact Hn.
Qed.

Lemma length_hex_of (f k : nat) (n : N) :
  (n < 16 ^ N.of_nat (S k))%N ->
  1 <= String.length (hex_of (S f) n) <= S k.
Proof.
  revert n k. induction f as [|f IH]; intros n k Hn.
  - cbn [hex_of]. rewrite length_app. destruct (n / 16 =? 0)%N; cbn; lia.
  - remember (S f) as f1 eqn:Ef1. cbn [hex_of]. rewrite length_app.
    destruct (n / 16 =? 0)%N eqn:Eq; [cbn; lia|].
    apply N.eqb_neq in Eq. subst f1. destruct k as [|k].
    + exfalso. apply Eq. apply N.div_small. exact Hn.
    + specialize (IH (n / 16)%N k). cbn [String.length].
      assert (Hq : (n / 16 < 16 ^ N.of_nat (S k))%N).
      { apply N.Div0.div_lt_upper_bound.
        replace (N.of_nat (S (S k))) with (N.succ (N.of_nat (S k))) in Hn by lia.
        rewrite N.pow_succ_r' in Hn. exact Hn. }
      specialize (IH Hq). lia.
Qed.

Lemma hex_fuel (n : N) : (n < 16 ^ N.of_nat (S (N.to_nat (N.log2 n))))%N.
Proof.
  replace (N.of_nat (S (N.to_nat (N.log2 n)))) with (N.succ (N.log2 n)) by lia.
  destruct (N.eq_dec n 0%N) as [-> | Hn]; [reflexivity|].
  pose proof (N.log2_spec n ltac:(lia)) as [_ Hlt].
  eapply N.lt_le_trans; [exact Hlt|].
  apply N.pow_le_mono_l. lia.
Qed.

Lemma digits_hex (n : N) : digits 0 (hex n) = (n, "").
Proof.
  unfold hex. rewrite (surjective_pairing (digits 0 _)).
  rewrite digits_hex_of by apply hex_fuel.
  rewrite digits_all_hex by apply all_hex_hex_of. reflexivity.
Qed.

(** On a non-empty string of hexadecimal digits, [int(., 16)] is the
    value of the digits. *)
Lemma int16_all_hex (s : string) :
  s <> "" -> all is_hexdigit s = true ->
  int16 s = Ok (Z.of_N (fst (digits 0 s))).
Proof.
  intros Hne Hall. destruct s as [|c1 s]; [contradiction|].
  pose proof Hall as Hall'. cbn in Hall'. apply andb_prop in Hall' as [H1 Hs].
  destruct (hexdigit_not_other c1 H1) as (Hsp & Hm & Hp & _ & _).
  unfold int16. cbn [lstrip]. rewrite Hsp. unfold strip_sign. rewrite Hm, Hp.
  assert (H0x : strip_0x (String c1 s) = String c1 s).
  { destruct s as [|c2 s]; [reflexivity|]. unfold strip_0x.
    cbn in Hs. apply andb_prop in Hs as [H2 _].
    destruct (hexdigit_not_other c2 H2) as (_ & _ & _ & Hx & HX).
    rewrite Hx, HX. cbn. now rewrite andb_false_r. }
  rewrite H0x, H1. rewrite (surjective_pairing (digits 0 _)).
  rewrite (digits_all_hex _ _ Hall). reflexivity.
Qed.

(** The four-character prefix of a frame whose payload is shorter than
    [65536] bytes. *)
Lemma fmt_04x_small (n : nat) :
  (Z.of_nat n < 65536)%Z ->
  String.length (fmt_04x (Z.of_nat n)) = 4
  /\ all is_hexdigit (fmt_04x (Z.of_nat n)) = true
  /\ digits 0 (fmt_04x (Z.of_nat n)) = (N.of_nat n, "").
Proof.
  intros Hn. unfold fmt_04x.
  assert (Hs : (Z.of_nat n <? 0)%Z = false) by (apply Z.ltb_ge; lia).
  rewrite Hs. rewrite app_nil_l. cbn [String.length].
  replace (Z.abs_N (Z.of_nat n)) with (N.of_nat n) by lia.
  assert (Hlen : 1 <= String.length (hex (N.of_nat n)) <= 4).
  { unfold hex. apply (length_hex_of _ 3). change (16 ^ N.of_nat 4)%N with 65536%N. lia. }
  repeat split.
  - rewrite length_app, length_zeros. lia.
  - rewrite all_app, all_hex_zeros. apply all_hex_hex_of.
  - rewrite digits_zeros. apply digits_hex.
Qed.

End Codec.

(** C1.  For every payload [p] shorter than [65536] bytes, the first
    four bytes of the frame [str(Message(p))] decode, with [unpack], to
    the length of [p]. *)
Theorem frame_length_roundtrip (p : string) :
  (Z.of_nat (String.length p) < 65536)%Z ->
  unpack (Bytes.take 4 (Message.__str__ (Message.Message p)))
  = Ok (Z.of_nat (String.length p)).
Proof.
  intros Hp. unfold Message.__str__, unpack. cbn [Message.string_].
  destruct (Codec.fmt_04x_small _ Hp) as (Hlen & Hall & Hdig).
  rewrite <- Hlen at 1. rewrite BytesFacts.take_app.
  rewrite Codec.int16_all_hex.
  - rewrite Hdig. cbn [fst]. f_equal. lia.
  - intros E. rewrite E in Hlen. discriminate Hlen.
  - exact Hall.
Qed.

Lemma frame_length_roundtrip_witness :
  (Z.of_nat (String.length "host:version") < 65536)%Z
  /\ unpack (Bytes.take 4 (Message.__str__ (Message.Message "host:version")))
     = Ok 12%Z.
Proof.
  split; [cbn; lia | exact (frame_length_roundtrip "host:version" ltac:(cbn; lia))].
Defined.

(** ** Running the monad *)

Module Run.
Import Bytes BytesFacts.

Lemma bind_ok {A B} (m : M A) (f : A -> M B) (w w1 : World) (a : A) :
  m w = (Ok a, w1) -> (m ≫= f) w = f a w1.
Proof. intros H. unfold mbind, bind. now rewrite H. Qed.

Lemma bind_raise {A B} (m : M A) (f : A -> M B) (w w1 : World) (e : exn) :
  m w = (Raise e, w1) -> (m ≫= f) w = (Raise e, w1).
Proof. intros H. unfold mbind, bind. now rewrite H. Qed.

Lemma focus_focus (w : World) pre ch pe pre' ch' pe' :
  focus (focus w pre ch pe) pre' ch' pe' = focus w pre' ch' pe'.
Proof. reflexivity. Qed.

Lemma on_chan_focus {A} (f : Channel -> result A * Channel) w pre ch pe :
  on_chan (length pre) f (focus w pre ch pe)
  = (fst (f ch), focus w pre (snd (f ch)) pe).
Proof.
  unfold on_chan, focus. cbn [conns host port _c pending].
  rewrite list_lookup_middle by reflexivity.
  destruct (f ch) as [r ch']. cbn [fst snd].
  rewrite <- (Nat.add_0_r (length pre)) at 2.
  rewrite insert_app_r. reflexivity.
Qed.

Lemma c_focus w pre ch pe :
  Host.c (focus w pre ch pe) = (Ok (length pre), focus w pre ch pe).
Proof. reflexivity. Qed.

Lemma c_fresh w :
  _c w = None -> Host.c w = (Ok (length (conns w)), opened w).
Proof.
  intros H. unfold Host.c. erewrite bind_ok by (unfold get_c; rewrite H; reflexivity).
  reflexivity.
Qed.

Lemma splitn_app (a b : string) :
  splitn (String.length a) (a +:+ b) = Some (a, b).
Proof.
  induction a as [|x a IH]; [reflexivity|].
  rewrite app_cons. cbn [String.length splitn]. now rewrite IH.
Qed.

Lemma splitn_length (n : nat) (s a b : string) :
  splitn n s = Some (a, b) -> s = a +:+ b /\ String.length a = n.
Proof.
  revert s a b. induction n as [|n IH]; intros s a b H.
  - cbn in H. injection H as <- <-. now split.
  - destruct s as [|x s]; [discriminate H|]. cbn [splitn] in H.
    destruct (splitn n s) as [[a' b']|] eqn:E; [|discriminate H].
    injection H as <- <-. destruct (IH _ _ _ E) as [-> <-]. now split.
Qed.

(** [self.c.send(data)] with the connection held. *)
Lemma send_focus w pre ch pe (data : string) :
  (h ← Host.c; Connection.send h data) (focus w pre ch pe)
  = (Ok tt, focus w pre (mkChannel (incoming ch) (sent ch ++ [data]) (closed ch)) pe).
Proof.
  erewrite bind_ok by apply c_focus. unfold Connection.send.
  now rewrite on_chan_focus.
Qed.

Lemma recvn_focus w pre ch pe (n : Z) (a b : string) :
  incoming ch = a +:+ b -> String.length a = Z.to_nat n ->
  (h ← Host.c; Connection.recvn h n) (focus w pre ch pe)
  = (Ok a, focus w pre (mkChannel b (sent ch) (closed ch)) pe).
Proof.
  intros Hin Hlen. erewrite bind_ok by apply c_focus. unfold Connection.recvn.
  rewrite on_chan_focus, Hin, <- Hlen, splitn_app. reflexivity.
Qed.

Lemma recvall_focus w pre ch pe :
  (h ← Host.c; Connection.recvall h) (focus w pre ch pe)
  = (Ok (incoming ch), focus w pre (mkChannel "" (sent ch) (closed ch)) pe).
Proof.
  erewrite bind_ok by apply c_focus. unfold Connection.recvall.
  now rewrite on_chan_focus.
Qed.

(** [self.send(message)] with the connection held: the frame goes
    out and the four status bytes come in. *)
Lemma adb_send_focus w pre ch pe (message status rest : string) :
  incoming ch = status +:+ rest -> String.length status = 4 ->
  Host.send message (focus w pre ch pe)
  = (Ok status,
     focus w pre
       (mkChannel rest
          (sent ch ++ [Message.__str__ (Message.Message message)])
          (closed ch)) pe).
Proof.
  intros Hin Hlen. unfold Host.send. erewrite bind_ok by apply c_focus.
  unfold Connection.adb_send, Connection.send, Connection.recvn.
  unfold mbind, bind. rewrite on_chan_focus. cbn [fst snd].
  rewrite on_chan_focus. cbn [incoming sent closed].
  rewrite Hin. change (Z.to_nat 4) with 4. rewrite <- Hlen, splitn_app.
  reflexivity.
Qed.

(** [self.send(message)] with no connection held: one is opened first. *)
Lemma adb_send_fresh w (message : string) :
  _c w = None -> Host.send message w = Host.send message (opened w).
Proof.
  intros H. unfold Host.send. erewrite bind_ok by (apply c_fresh; exact H).
  now erewrite bind_ok by apply c_focus.
Qed.

Lemma close_if_open_focus w pre ch pe :
  Host.close_if_open (focus w pre ch pe)
  = (Ok tt,
     mkWorld (host w) (port w) None
       (pre ++ [mkChannel (incoming ch) (sent ch) true]) pe).
Proof.
  unfold Host.close_if_open.
  erewrite bind_ok by reflexivity. cbn [_c focus].
  unfold Connection.close, mbind, bind.
  rewrite on_chan_focus. reflexivity.
Qed.

Lemma close_if_open_none w : _c w = None -> Host.close_if_open w = (Ok tt, w).
Proof.
  intros H. unfold Host.close_if_open.
  erewrite bind_ok by (unfold get_c; rewrite H; reflexivity). reflexivity.
Qed.

Lemma opened_pending w (script : string) (more : list string) :
  pending w = script :: more ->
  opened w = focus w (conns w) (mkChannel script [] false) more.
Proof. intros H. unfold opened. now rewrite H. Qed.

Lemma transport_fresh context serial w :
  _c w = None ->
  Host.transport context serial w = Host.transport context serial (opened w).
Proof.
  intros H. unfold Host.transport, mbind, bind.
  now rewrite (adb_send_fresh w _ H).
Qed.

(** [transport] answered [FAIL]: [log.error] raises. *)
Lemma transport_fail context serial w pre ch pe (rest : string) :
  incoming ch = FAIL +:+ rest ->
  Host.transport context serial (focus w pre ch pe)
  = (Raise NameError,
     focus w pre
       (mkChannel rest (sent ch ++ [transport_frame context serial]) (closed ch))
       pe).
Proof.
  intros Hin. unfold Host.transport.
  erewrite bind_ok by (apply adb_send_focus; [exact Hin | reflexivity]).
  reflexivity.
Qed.

(** [transport] answered anything else: it returns. *)
Lemma transport_ok context serial w pre ch pe (status rest : string) :
  incoming ch = status +:+ rest -> String.length status = 4 ->
  status <> FAIL ->
  Host.transport context serial (focus w pre ch pe)
  = (Ok VNone,
     focus w pre
       (mkChannel rest (sent ch ++ [transport_frame context serial]) (closed ch))
       pe).
Proof.
  intros Hin Hlen Hne. unfold Host.transport.
  erewrite bind_ok by (apply adb_send_focus; [exact Hin | exact Hlen]).
  apply String.eqb_neq in Hne. rewrite Hne. reflexivity.
Qed.

(** A decorated command whose transport selection is answered [FAIL]
    stops there, whatever its body is. *)
Lemma with_transport_fail context (fn : M value) w (rest : string)
    (more : list string) :
  _c w = None -> pending w = (FAIL +:+ rest) :: more ->
  Host.autoclose (Host.with_transport context fn) w
  = (Raise NameError,
     focus w (conns w)
       (mkChannel rest [transport_frame context None] false) more).
Proof.
  intros Hc Hp. unfold Host.autoclose, Host.with_transport.
  apply bind_raise. apply bind_raise.
  rewrite (transport_fresh _ _ _ Hc), (opened_pending _ _ _ Hp).
  now rewrite (transport_fail _ _ _ _ (mkChannel _ _ _) _ rest eq_refl).
Qed.

Lemma adb_send_eof w pre ch pe (message : string) :
  splitn 4 (incoming ch) = None ->
  Host.send message (focus w pre ch pe)
  = (Raise EOFError,
     focus w pre
       (mkChannel (incoming ch)
          (sent ch ++ [Message.__str__ (Message.Message message)])
          (closed ch)) pe).
Proof.
  intros Hin. unfold Host.send. erewrite bind_ok by apply c_focus.
  unfold Connection.adb_send, Connection.send, Connection.recvn.
  unfold mbind, bind. rewrite on_chan_focus. cbn [fst snd].
  rewrite on_chan_focus. cbn [incoming sent closed].
  change (Z.to_nat 4) with 4. rewrite Hin. reflexivity.
Qed.

Lemma or_idem (d : option string) : or_ d d = d.
Proof. destruct d as [[|x s]|]; reflexivity. Qed.

Lemma transport_frame_device context :
  transport_frame context (device context) = transport_frame context None.
Proof. unfold transport_frame. cbn [or_]. now rewrite or_idem. Qed.

(** [transport] not answered: the read raises. *)
Lemma transport_eof context serial w pre ch pe :
  splitn 4 (incoming ch) = None ->
  Host.transport context serial (focus w pre ch pe)
  = (Raise EOFError,
     focus w pre
       (mkChannel (incoming ch) (sent ch ++ [transport_frame context serial])
          (closed ch)) pe).
Proof.
  intros Hin. unfold Host.transport. apply bind_raise.
  now rewrite adb_send_eof.
Qed.

Lemma splitn_app_inv (a b a' b' : string) :
  a +:+ b = a' +:+ b' -> String.length a = String.length a' ->
  a = a' /\ b = b'.
Proof.
  intros E L. pose proof (splitn_app a b) as H1.
  rewrite E, L, splitn_app in H1. injection H1 as -> ->. now split.
Qed.

Section Execute.

Variable context : Context.
Variable sh_string : string -> string.
Variable argv : argv_t.
Variable w : World.
Variables (s1 s2 rest : string) (more : list string).

Hypothesis no_connection : _c w = None.
Hypothesis script : pending w = (s1 +:+ s2 +:+ rest) :: more.
Hypothesis len1 : String.length s1 = 4.
Hypothesis len2 : String.length s2 = 4.
Hypothesis ok1 : s1 <> FAIL.
Hypothesis ok2 : s2 <> FAIL.

Let T := transport_frame context None.
Let E := exec_frame sh_string argv.

(** Both transport selections went through; what [execute] does next
    depends on the answer to [exec:]. *)
Lemma execute_prefix :
  Host.execute context sh_string argv w
  = (rv ← (rv ← (r ← Host.send
                   ("exec:" +:+ Bytes.join " "
                      (map sh_string
                         (match argv with ArgStr s => [s] | ArgList l => l end)));
                 if String.eqb OKAY r then
                   rv ← get_c;
                   set_c None;;
                   mret (match rv with Some h => VConn h | None => VNone end)
                 else mret VNone);
           Host.close_if_open;; mret rv);
     Host.close_if_open;; mret rv)
    (focus w (conns w) (mkChannel rest [T; T] false) more).
Proof.
  unfold Host.execute, Host.autoclose, Host.with_transport.
  unfold mbind at 1 2 3 4 5 6. unfold bind at 1 2 3 4 5 6.
  rewrite (transport_fresh _ _ _ no_connection), (opened_pending _ _ _ script).
  rewrite (transport_ok _ _ _ _ (mkChannel _ _ _) _ s1 (s2 +:+ rest) eq_refl len1 ok1).
  cbn [incoming sent closed app].
  rewrite (transport_ok _ _ _ _ (mkChannel _ _ _) _ s2 rest eq_refl len2 ok2).
  cbn [incoming sent closed app]. rewrite transport_frame_device.
  reflexivity.
Qed.

(** [exec:] answered [OKAY]: the connection is handed over, open. *)
Lemma execute_okay (tail_ : string) :
  rest = OKAY +:+ tail_ ->
  Host.execute context sh_string argv w
  = (Ok (VConn (length (conns w))),
     mkWorld (host w) (port w) None
       (conns w ++ [mkChannel tail_ [T; T; E] false]) more).
Proof.
  intros Hr. rewrite execute_prefix.
  unfold mbind, bind.
  rewrite (adb_send_focus _ _ (mkChannel _ _ _) _ _ OKAY tail_ Hr eq_refl).
  reflexivity.
Qed.

(** [exec:] answered by another status: the connection is closed. *)
Lemma execute_refused (status tail_ : string) :
  rest = status +:+ tail_ -> String.length status = 4 -> status <> OKAY ->
  Host.execute context sh_string argv w
  = (Ok VNone,
     mkWorld (host w) (port w) None
       (conns w ++ [mkChannel tail_ [T; T; E] true]) more).
Proof.
  intros Hr Hlen Hne. rewrite execute_prefix.
  assert (Hq : String.eqb OKAY status = false).
  { apply String.eqb_neq. congruence. }
  erewrite bind_ok; cycle 1.
  { erewrite bind_ok; cycle 1.
    { erewrite bind_ok
        by exact (adb_send_focus _ _ (mkChannel _ _ _) _ _ status tail_ Hr Hlen).
      rewrite Hq. reflexivity. }
    erewrite bind_ok by apply close_if_open_focus. reflexivity. }
  reflexivity.
Qed.

(** [exec:] not answered: the read raises, after the frame went out. *)
Lemma execute_eof :
  splitn 4 rest = None ->
  Host.execute context sh_string argv w
  = (Raise EOFError,
     focus w (conns w) (mkChannel rest [T; T; E] false) more).
Proof.
  intros Hn. rewrite execute_prefix.
  do 3 apply bind_raise.
  now rewrite adb_send_eof.
Qed.

(** The second selection answered [FAIL]. *)
Lemma execute_second_fail (tail_ : string) :
  pending w = (s1 +:+ FAIL +:+ tail_) :: more ->
  Host.execute context sh_string argv w
  = (Raise NameError,
     focus w (conns w) (mkChannel tail_ [T; T] false) more).
Proof.
  intros Hp. unfold Host.execute, Host.autoclose, Host.with_transport.
  apply bind_raise. erewrite bind_ok; cycle 1.
  { rewrite (transport_fresh _ _ _ no_connection), (opened_pending _ _ _ Hp).
    exact (transport_ok _ _ _ _ (mkChannel _ _ _) _ s1 _ eq_refl len1 ok1). }
  do 2 apply bind_raise. cbn [incoming sent closed app].
  rewrite (transport_fail _ _ _ _ (mkChannel _ _ _) _ tail_ eq_refl).
  cbn [incoming sent closed app]. now rewrite transport_frame_device.
Qed.

(** The second selection not answered. *)
Lemma execute_second_eof (r1 : string) :
  pending w = (s1 +:+ r1) :: more -> splitn 4 r1 = None ->
  Host.execute context sh_string argv w
  = (Raise EOFError,
     focus w (conns w) (mkChannel r1 [T; T] false) more).
Proof.
  intros Hp Hn. unfold Host.execute, Host.autoclose, Host.with_transport.
  apply bind_raise. erewrite bind_ok; cycle 1.
  { rewrite (transport_fresh _ _ _ no_connection), (opened_pending _ _ _ Hp).
    exact (transport_ok _ _ _ _ (mkChannel _ _ _) _ s1 _ eq_refl len1 ok1). }
  do 2 apply bind_raise. cbn [incoming sent closed app].
  rewrite (transport_eof _ _ _ _ (mkChannel _ _ _) _ Hn).
  cbn [incoming sent closed app]. now rewrite transport_frame_device.
Qed.

End Execute.

(** A decorated command whose transport selection is not answered. *)
Lemma with_transport_eof context (fn : M value) w (script : string)
    (more : list string) :
  _c w = None -> pending w = script :: more -> splitn 4 script = None ->
  Host.autoclose (Host.with_transport context fn) w
  = (Raise EOFError,
     focus w (conns w)
       (mkChannel script [transport_frame context None] false) more).
Proof.
  intros Hc Hp Hn. unfold Host.autoclose, Host.with_transport.
  apply bind_raise. apply bind_raise.
  rewrite (transport_fresh _ _ _ Hc), (opened_pending _ _ _ Hp).
  now rewrite (transport_eof _ _ _ _ (mkChannel _ _ _) _ Hn).
Qed.

(** *** 32-bit fields *)

Lemma N_of_byte_of (n : Z) : Z.of_N (N_of_ascii (byte_of n)) = (n mod 256)%Z.
Proof.
  unfold byte_of. pose proof (Z.mod_pos_bound n 256 eq_refl) as Hb.
  rewrite N_ascii_embedding by lia. lia.
Qed.

Lemma le_decode_p32 (n : Z) : le_decode (p32 n) = (n mod 4294967296)%Z.
Proof.
  unfold p32. cbn [le_decode]. rewrite !N_of_byte_of.
  Z.div_mod_to_equations. lia.
Qed.

Lemma length_p32 (n : Z) : String.length (p32 n) = 4.
Proof. reflexivity. Qed.

Lemma u32_focus w pre ch pe (n : Z) (rest : string) :
  incoming ch = p32 n +:+ rest ->
  (h ← Host.c; Connection.u32 h) (focus w pre ch pe)
  = (Ok (n mod 4294967296)%Z,
     focus w pre (mkChannel rest (sent ch) (closed ch)) pe).
Proof.
  intros Hin. erewrite bind_ok by apply c_focus. unfold Connection.u32.
  erewrite bind_ok; cycle 1.
  { pose proof (recvn_focus w pre ch pe 4 (p32 n) rest Hin eq_refl) as H.
    erewrite bind_ok in H by apply c_focus. exact H. }
  unfold mret, ret. now rewrite le_decode_p32.
Qed.

Lemma unpack_focus w pre ch pe (field rest : string) (a : Z) :
  incoming ch = field +:+ rest -> String.length field = 4 ->
  unpack field = Ok a ->
  (h ← Host.c; Connection.unpack h) (focus w pre ch pe)
  = (Ok a, focus w pre (mkChannel rest (sent ch) (closed ch)) pe).
Proof.
  intros Hin Hlen Hu. erewrite bind_ok by apply c_focus.
  unfold Connection.unpack.
  erewrite bind_ok; cycle 1.
  { pose proof (recvn_focus w pre ch pe 4 field rest Hin Hlen) as H.
    erewrite bind_ok in H by apply c_focus. exact H. }
  unfold lift. now rewrite Hu.
Qed.

Lemma remaining_focus w pre ch pe :
  (h ← Host.c; Connection.remaining h) (focus w pre ch pe)
  = (Ok (String.length (incoming ch)), focus w pre ch pe).
Proof.
  erewrite bind_ok by apply c_focus. unfold Connection.remaining.
  rewrite on_chan_focus. cbn [fst snd]. reflexivity.
Qed.

Lemma flat_focus w pre ch pe (args : list flat_arg) :
  (h ← Host.c; Connection.flat h args) (focus w pre ch pe)
  = (Ok tt,
     focus w pre (mkChannel (incoming ch) (sent ch ++ [flat args]) (closed ch)) pe).
Proof. apply send_focus. Qed.

(** *** Decorated commands past the transport selection *)

Section Decorated.

Variable context : Context.
Variable w : World.
Variables (s1 rest : string) (more : list string).

Hypothesis no_connection : _c w = None.
Hypothesis script : pending w = (s1 +:+ rest) :: more.
Hypothesis len1 : String.length s1 = 4.
Hypothesis ok1 : s1 <> FAIL.

Let T := transport_frame context None.

Lemma with_transport_selected :
  Host.transport context None w
  = (Ok VNone, focus w (conns w) (mkChannel rest [T] false) more).
Proof.
  rewrite (transport_fresh _ _ _ no_connection), (opened_pending _ _ _ script).
  exact (transport_ok _ _ _ _ (mkChannel _ _ _) _ s1 rest eq_refl len1 ok1).
Qed.

(** The body returns holding the connection: both wrappers let the
    value through and the connection ends closed. *)
Lemma with_transport_returns (fn : M value) (v : value) (ch : Channel) :
  fn (focus w (conns w) (mkChannel rest [T] false) more)
  = (Ok v, focus w (conns w) ch more) ->
  Host.autoclose (Host.with_transport context fn) w
  = (Ok v, released w (incoming ch) (sent ch) more).
Proof.
  intros Hfn. unfold Host.autoclose, Host.with_transport.
  erewrite bind_ok; cycle 1.
  { erewrite bind_ok by exact with_transport_selected.
    erewrite bind_ok by exact Hfn.
    erewrite bind_ok by apply close_if_open_focus. reflexivity. }
  reflexivity.
Qed.

(** The body raises: so does the decorated command, at once. *)
Lemma with_transport_raises (fn : M value) (e : exn) (w1 : World) :
  fn (focus w (conns w) (mkChannel rest [T] false) more) = (Raise e, w1) ->
  Host.autoclose (Host.with_transport context fn) w = (Raise e, w1).
Proof.
  intros Hfn. unfold Host.autoclose, Host.with_transport.
  apply bind_raise. erewrite bind_ok by exact with_transport_selected.
  apply bind_raise. exact Hfn.
Qed.

End Decorated.

(** *** The sync commands *)

Section Sync.

Variable context : Context.
Variable w : World.
Variables (s1 status rest : string) (more : list string).
Variable path : string.

Hypothesis no_connection : _c w = None.
Hypothesis script : pending w = (s1 +:+ status +:+ rest) :: more.
Hypothesis len1 : String.length s1 = 4.
Hypothesis ok1 : s1 <> FAIL.
Hypothesis len2 : String.length status = 4.

Let T := transport_frame context None.
Let S := sync_frame.

Lemma sync_answered :
  Host.send "sync:" (focus w (conns w) (mkChannel (status +:+ rest) [T] false) more)
  = (Ok status, focus w (conns w) (mkChannel rest [T; S] false) more).
Proof. exact (adb_send_focus _ _ (mkChannel _ _ _) _ _ status rest eq_refl len2). Qed.

Lemma write_okay (mode : Z) :
  status = OKAY ->
  Host.write context path mode w
  = (Ok (VStr rest),
     released w ""
       [T; S;
        flat [FStr "SEND"; FInt (Z.of_nat (String.length path));
              FStr (path +:+ "," +:+ str_int mode)];
        path] more).
Proof.
  intros Hs. unfold Host.write.
  apply (with_transport_returns context w s1 _ more no_connection script len1 ok1
           _ _ (mkChannel "" _ false)).
  erewrite bind_ok by exact sync_answered. rewrite Hs. cbn [String.eqb Ascii.eqb Bool.eqb OKAY].
  erewrite bind_ok by apply flat_focus.
  erewrite bind_ok by apply send_focus.
  erewrite bind_ok by apply recvall_focus. reflexivity.
Qed.

Lemma write_refused (mode : Z) :
  status <> OKAY ->
  Host.write context path mode w = (Ok VNone, released w rest [T; S] more).
Proof.
  intros Hs. unfold Host.write.
  apply (with_transport_returns context w s1 _ more no_connection script len1 ok1
           _ _ (mkChannel rest _ false)).
  erewrite bind_ok by exact sync_answered.
  assert (Hq : String.eqb OKAY status = false) by (apply String.eqb_neq; congruence).
  rewrite Hq. reflexivity.
Qed.

Lemma read_okay :
  status = OKAY ->
  Host.read context path w
  = (Ok (VStr rest),
     released w ""
       [T; S; "RECV" +:+ p32 (Z.of_nat (String.length path)); path] more).
Proof.
  intros Hs. unfold Host.read.
  apply (with_transport_returns context w s1 _ more no_connection script len1 ok1
           _ _ (mkChannel "" _ false)).
  erewrite bind_ok by exact sync_answered. rewrite Hs. cbn [String.eqb Ascii.eqb Bool.eqb OKAY].
  erewrite bind_ok by apply send_focus.
  erewrite bind_ok by apply send_focus.
  erewrite bind_ok by apply recvall_focus. reflexivity.
Qed.

Lemma read_refused :
  status <> OKAY ->
  Host.read context path w = (Ok VNone, released w rest [T; S] more).
Proof.
  intros Hs. unfold Host.read.
  apply (with_transport_returns context w s1 _ more no_connection script len1 ok1
           _ _ (mkChannel rest _ false)).
  erewrite bind_ok by exact sync_answered.
  assert (Hq : String.eqb OKAY status = false) by (apply String.eqb_neq; congruence).
  rewrite Hq. reflexivity.
Qed.

Lemma list_fail :
  status = FAIL ->
  Host.list context path w = (Ok VNone, released w rest [T; S] more).
Proof.
  intros Hs. unfold Host.list.
  apply (with_transport_returns context w s1 _ more no_connection script len1 ok1
           _ _ (mkChannel rest _ false)).
  erewrite bind_ok by exact sync_answered. rewrite Hs. reflexivity.
Qed.

End Sync.

(** *** The listing loop *)

Lemma reads_ret {A} (a : A) : reads (mret a).
Proof. intros w pre ch pe. exists (Ok a), ch. now repeat split. Qed.

Lemma reads_raise {A} (e : exn) : reads (@raise A e).
Proof. intros w pre ch pe. exists (Raise e), ch. now repeat split. Qed.

Lemma reads_bind {A B} (m : M A) (f : A -> M B) :
  reads m -> (forall a, reads (f a)) -> reads (m ≫= f).
Proof.
  intros Hm Hf w pre ch pe.
  destruct (Hm w pre ch pe) as ([a|e] & ch1 & E1 & Hs1 & Hc1).
  - destruct (Hf a w pre ch1 pe) as (r & ch2 & E2 & Hs2 & Hc2).
    exists r, ch2. rewrite (bind_ok _ _ _ _ _ E1). repeat split; congruence.
  - exists (Raise e), ch1. rewrite (bind_raise _ _ _ _ _ E1). now repeat split.
Qed.

Lemma reads_recvn (n : Z) : reads (h ← Host.c; Connection.recvn h n).
Proof.
  intros w pre ch pe. erewrite bind_ok by apply c_focus.
  unfold Connection.recvn. rewrite on_chan_focus.
  destruct (splitn (Z.to_nat n) (incoming ch)) as [[a b]|]; cbn [fst snd];
    eexists _, _; repeat split.
Qed.

Lemma reads_u32 : reads (h ← Host.c; Connection.u32 h).
Proof.
  intros w pre ch pe. erewrite bind_ok by apply c_focus.
  unfold Connection.u32.
  destruct (reads_recvn 4 w pre ch pe) as (r & ch1 & E1 & Hs1 & Hc1).
  erewrite bind_ok in E1 by apply c_focus.
  destruct r as [b|e].
  - exists (Ok (le_decode b)), ch1. rewrite (bind_ok _ _ _ _ _ E1).
    now repeat split.
  - exists (Raise e), ch1. rewrite (bind_raise _ _ _ _ _ E1). now repeat split.
Qed.

Lemma reads_list_while (fuel : nat) (files : list string) :
  reads (Host.list_while fuel files).
Proof.
  revert files. induction fuel as [|fuel IH]; intros files; cbn [Host.list_while].
  - apply reads_raise.
  - apply reads_bind; [apply reads_recvn|]. intros response.
    destruct (negb (response =? "DENT")%string); [apply reads_ret|].
    do 3 (apply reads_bind; [apply reads_u32|]; intros ?).
    apply reads_bind.
    + apply reads_bind; [apply reads_u32|]. intros n. apply reads_recvn.
    + intros name. destruct (Host.ignored name); apply IH.
Qed.

Lemma receives_bind {A B} (m : M A) (f : A -> M B) :
  receives m -> (forall a, receives (f a)) -> receives (m ≫= f).
Proof.
  intros Hm Hf w pre ch pe.
  destruct (Hm w pre ch pe) as ([a|e] & ch1 & E1 & Hr1 & Hl1).
  - destruct (Hf a w pre ch1 pe) as (r & ch2 & E2 & Hr2 & Hl2).
    exists r, ch2. rewrite (bind_ok _ _ _ _ _ E1).
    split; [exact E2|]. split; [exact Hr2 | lia].
  - exists (Raise e), ch1. rewrite (bind_raise _ _ _ _ _ E1).
    split; [reflexivity|]. split; [congruence | exact Hl1].
Qed.

Lemma receives_recvn (n : Z) : receives (h ← Host.c; Connection.recvn h n).
Proof.
  intros w pre ch pe. erewrite bind_ok by apply c_focus.
  unfold Connection.recvn. rewrite on_chan_focus.
  destruct (splitn (Z.to_nat n) (incoming ch)) as [[a b]|] eqn:E; cbn [fst snd].
  - eexists _, _. split; [reflexivity|]. split; [discriminate|].
    apply splitn_length in E as [E _]. cbn [incoming].
    rewrite E, length_app. lia.
  - eexists _, _. split; [reflexivity|]. split; [discriminate | reflexivity].
Qed.

Lemma receives_u32 : receives (h ← Host.c; Connection.u32 h).
Proof.
  intros w pre ch pe. erewrite bind_ok by apply c_focus.
  unfold Connection.u32.
  destruct (receives_recvn 4 w pre ch pe) as (r & ch1 & E1 & Hr1 & Hl1).
  erewrite bind_ok in E1 by apply c_focus.
  destruct r as [b|e].
  - exists (Ok (le_decode b)), ch1. rewrite (bind_ok _ _ _ _ _ E1).
    split; [reflexivity|]. split; [discriminate | exact Hl1].
  - exists (Raise e), ch1. rewrite (bind_raise _ _ _ _ _ E1).
    split; [reflexivity|]. split; [congruence | exact Hl1].
Qed.

Lemma receives_step {A B} (m : M A) (f : A -> M B) w pre ch pe
    (r : result B) (w' : World) :
  receives m ->
  (m ≫= f) (focus w pre ch pe) = (r, w') ->
  (exists (a : A) (ch' : Channel),
     String.length (incoming ch') <= String.length (incoming ch)
     /\ f a (focus w pre ch' pe) = (r, w'))
  \/ r <> Raise OutOfFuel.
Proof.
  intros Hm Hrun.
  destruct (Hm w pre ch pe) as ([a|e] & ch1 & E1 & Hr1 & Hl1).
  - rewrite (bind_ok _ _ _ _ _ E1) in Hrun. left. eauto.
  - rewrite (bind_raise _ _ _ _ _ E1) in Hrun. right.
    injection Hrun as <- _. congruence.
Qed.

(** The loop never runs out of rounds when it is given more rounds
    than there are bytes left to receive: every round that goes on
    receives the four bytes of a tag. *)
Lemma list_while_fuel (fuel : nat) :
  forall (files : list string) w pre ch pe (r : result (list string)) w',
    String.length (incoming ch) < fuel ->
    Host.list_while fuel files (focus w pre ch pe) = (r, w') ->
    r <> Raise OutOfFuel.
Proof.
  induction fuel as [|fuel IH]; intros files w pre ch pe r w' Hlen Hrun;
    [lia|].
  cbn [Host.list_while] in Hrun.
  destruct (splitn 4 (incoming ch)) as [[tag b]|] eqn:E.
  - pose proof (splitn_length _ _ _ _ E) as [Ein Ltag].
    erewrite bind_ok in Hrun by (apply recvn_focus; [exact Ein | exact Ltag]).
    destruct (negb (tag =? "DENT")%string).
    { injection Hrun as <- _. discriminate. }
    assert (Hb : String.length b + 4 <= String.length (incoming ch))
      by (rewrite Ein, length_app; lia).
    apply receives_step in Hrun as [(mode & ch1 & Hl1 & Hrun) | Hdone];
      [|exact Hdone | apply receives_u32].
    apply receives_step in Hrun as [(size & ch2 & Hl2 & Hrun) | Hdone];
      [|exact Hdone | apply receives_u32].
    apply receives_step in Hrun as [(time & ch3 & Hl3 & Hrun) | Hdone];
      [|exact Hdone | apply receives_u32].
    apply receives_step in Hrun as [(name & ch4 & Hl4 & Hrun) | Hdone];
      [|exact Hdone
       |apply receives_bind; [apply receives_u32 | intros n; apply receives_recvn]].
    cbn [incoming] in Hl1.
    destruct (Host.ignored name);
      (eapply IH; [|exact Hrun]; lia).
  - assert (Hr : (h ← Host.c; Connection.recvn h 4) (focus w pre ch pe)
                 = (Raise EOFError, focus w pre ch pe)).
    { erewrite bind_ok by apply c_focus. unfold Connection.recvn.
      rewrite on_chan_focus. change (Z.to_nat 4) with 4. rewrite E.
      cbn [fst snd]. now destruct ch. }
    rewrite (bind_raise _ _ _ _ _ Hr) in Hrun.
    injection Hrun as <- _. discriminate.
Qed.

Lemma length_encode_dents (ds : list dent) :
  length ds <= String.length (encode_dents ds).
Proof.
  induction ds as [|d ds IH]; [reflexivity|].
  cbn [encode_dents length]. rewrite length_app. unfold encode_dent.
  rewrite length_app. cbn [String.length]. lia.
Qed.

Lemma kept_names_cons (d : dent) (ds : list dent) :
  kept_names (d :: ds)
  = if Host.ignored (d_name d) then kept_names ds
    else d_name d :: kept_names ds.
Proof. unfold kept_names. cbn. now destruct (Host.ignored (d_name d)). Qed.

(** On well-formed entries followed by another tag, the loop collects
    the names it keeps, in the order received, and stops after the tag. *)
Lemma list_while_dents (ds : list dent) :
  forall (fuel : nat) (files : list string) w pre ch pe (endtag rest : string),
    length ds < fuel ->
    incoming ch = encode_dents ds +:+ endtag +:+ rest ->
    String.length endtag = 4 -> endtag <> "DENT" ->
    Forall (fun d => (Z.of_nat (String.length (d_name d)) < 4294967296)%Z) ds ->
    Host.list_while fuel files (focus w pre ch pe)
    = (Ok (files ++ kept_names ds)%list,
       focus w pre (mkChannel rest (sent ch) (closed ch)) pe).
Proof.
  induction ds as [|d ds IH]; intros fuel files w pre ch pe endtag rest
    Hfuel Hin Hlen Hne Hwf;
    (destruct fuel as [|fuel]; [cbn in Hfuel; lia|]); cbn [Host.list_while].
  - cbn [encode_dents] in Hin. rewrite app_nil_l in Hin.
    erewrite bind_ok by (apply recvn_focus; [exact Hin | exact Hlen]).
    apply String.eqb_neq in Hne. rewrite Hne. cbn [negb].
    unfold kept_names. cbn. now rewrite List.app_nil_r.
  - cbn [encode_dents] in Hin. unfold encode_dent in Hin.
    rewrite !app_assoc in Hin.
    erewrite bind_ok by (apply recvn_focus; [exact Hin | reflexivity]).
    cbn [String.eqb Ascii.eqb Bool.eqb negb].
    erewrite bind_ok by (apply (u32_focus _ _ (mkChannel _ _ _)); reflexivity).
    erewrite bind_ok by (apply (u32_focus _ _ (mkChannel _ _ _)); reflexivity).
    erewrite bind_ok by (apply (u32_focus _ _ (mkChannel _ _ _)); reflexivity).
    apply Forall_cons in Hwf as [Hd Hwf].
    erewrite bind_ok; cycle 1.
    { erewrite bind_ok by (apply (u32_focus _ _ (mkChannel _ _ _)); reflexivity).
      apply (recvn_focus _ _ (mkChannel _ _ _)); [reflexivity|].
      rewrite Z.mod_small by lia. now rewrite Nat2Z.id. }
    rewrite kept_names_cons. cbn [sent closed].
    destruct (Host.ignored (d_name d)).
    + apply (IH fuel files _ _ (mkChannel _ _ _) _ endtag rest);
        [cbn in Hfuel; lia | reflexivity | exact Hlen | exact Hne | exact Hwf].
    + rewrite (IH fuel (files ++ [d_name d])%list _ _ (mkChannel _ _ _) _ endtag rest);
        [| cbn in Hfuel; lia | reflexivity | exact Hlen | exact Hne | exact Hwf].
      cbn [sent closed]. now rewrite <- List.app_assoc.
Qed.

Section Listing.

Variable context : Context.
Variable w : World.
Variables (s1 status rest : string) (more : list string).
Variable path : string.

Hypothesis no_connection : _c w = None.
Hypothesis script : pending w = (s1 +:+ status +:+ rest) :: more.
Hypothesis len1 : String.length s1 = 4.
Hypothesis ok1 : s1 <> FAIL.
Hypothesis len2 : String.length status = 4.
Hypothesis ok2 : status <> FAIL.

Let T := transport_frame context None.
Let S := sync_frame.
Let L := list_request path.

(** Past a [sync:] answer other than [FAIL], [list] writes its request
    and nothing after it, however the listing ends. *)
Lemma list_proceeds :
  exists (r : result value) (w' : World) (ch : Channel),
    Host.list context path w = (r, w')
    /\ r <> Raise OutOfFuel
    /\ conns w' = (conns w ++ [ch])%list
    /\ sent ch = [T; S; L].
Proof.
  destruct (reads_list_while (Datatypes.S (String.length rest)) [] w (conns w)
              (mkChannel rest [T; S; L] false) more)
    as (r & ch' & Eloop & Hs & Hc).
  assert (Hq : String.eqb FAIL status = false) by (apply String.eqb_neq; congruence).
  destruct r as [files|e].
  - exists (Ok (VList (sorted files))), (released w (incoming ch') (sent ch') more),
      (mkChannel (incoming ch') (sent ch') true).
    split; [|split; [discriminate | split; [reflexivity | exact Hs]]].
    unfold Host.list.
    apply (with_transport_returns context w s1 _ more no_connection script len1 ok1
             _ _ ch').
    erewrite bind_ok by exact (sync_answered context w status rest more len2).
    rewrite Hq.
    erewrite bind_ok by apply flat_focus.
    erewrite bind_ok by apply remaining_focus.
    cbn [incoming sent closed app].
    erewrite bind_ok by exact Eloop. reflexivity.
  - exists (Raise e), (focus w (conns w) ch' more), ch'.
    split; [|split; [|split; [reflexivity | exact Hs]]]; cycle 1.
    { pose proof (list_while_fuel _ _ _ _ _ _ _ _ (Nat.lt_succ_diag_r _) Eloop).
      congruence. }
    unfold Host.list.
    apply (with_transport_raises context w s1 _ more no_connection script len1 ok1).
    erewrite bind_ok by exact (sync_answered context w status rest more len2).
    rewrite Hq.
    erewrite bind_ok by apply flat_focus.
    erewrite bind_ok by apply remaining_focus.
    cbn [incoming sent closed app].
    apply bind_raise. exact Eloop.
Qed.

(** On a well-formed listing, [list] returns the kept names, sorted. *)
Lemma list_dents (ds : list dent) (endtag tail_ : string) :
  rest = encode_dents ds +:+ endtag +:+ tail_ ->
  String.length endtag = 4 -> endtag <> "DENT" ->
  Forall (fun d => (Z.of_nat (String.length (d_name d)) < 4294967296)%Z) ds ->
  Host.list context path w
  = (Ok (VList (sorted (kept_names ds))), released w tail_ [T; S; L] more).
Proof.
  intros Hr Hlen Hne Hwf.
  assert (Hq : String.eqb FAIL status = false) by (apply String.eqb_neq; congruence).
  unfold Host.list.
  apply (with_transport_returns context w s1 _ more no_connection script len1 ok1
           _ _ (mkChannel tail_ _ false)).
  erewrite bind_ok by exact (sync_answered context w status rest more len2).
  rewrite Hq.
  erewrite bind_ok by apply flat_focus.
  erewrite bind_ok by apply remaining_focus.
  cbn [incoming sent closed app].
  erewrite bind_ok; cycle 1.
  { apply (list_while_dents ds _ _ _ _ (mkChannel _ _ _) _ endtag tail_);
      [| exact Hr | exact Hlen | exact Hne | exact Hwf].
    rewrite Hr, length_app. pose proof (length_encode_dents ds). lia. }
  reflexivity.
Qed.

End Listing.

End Run.

(** ** Releasing the connection *)

Module Release.

Lemma bind_inv {A B} (m : M A) (f : A -> M B) (w w' : World) (r : result B) :
  (m ≫= f) w = (r, w') ->
  (exists a w1, m w = (Ok a, w1) /\ f a w1 = (r, w'))
  \/ (exists e, m w = (Raise e, w') /\ r = Raise e).
Proof.
  unfold mbind, bind. destruct (m w) as [[a|e] w1]; intros H.
  - left. eauto.
  - right. injection H as <- <-. eauto.
Qed.

Section Preserves.

Variable P : handle -> Prop.

Lemma preserves_ret {A} (a : A) : preserves P (mret a).
Proof. intros w w' r Ht H. injection H as <- <-. exact Ht. Qed.

Lemma preserves_raise {A} (e : exn) : preserves P (@raise A e).
Proof. intros w w' r Ht H. injection H as <- <-. exact Ht. Qed.

Lemma preserves_lift {A} (x : result A) : preserves P (lift x).
Proof. intros w w' r Ht H. injection H as <- <-. exact Ht. Qed.

Lemma preserves_bind {A B} (m : M A) (f : A -> M B) :
  preserves P m -> (forall a, preserves P (f a)) -> preserves P (m ≫= f).
Proof.
  intros Hm Hf w w' r Ht H.
  destruct (bind_inv _ _ _ _ _ H) as [(a & w1 & H1 & H2) | (e & H1 & _)].
  - exact (Hf a _ _ _ (Hm _ _ _ Ht H1) H2).
  - exact (Hm _ _ _ Ht H1).
Qed.

Lemma preserves_try {A} (m h : M A) :
  preserves P m -> preserves P h -> preserves P (try_except_EOFError m h).
Proof.
  intros Hm Hh w w' r Ht H. unfold try_except_EOFError in H.
  destruct (m w) as [[a|e] w1] eqn:E.
  - injection H as <- <-. exact (Hm _ _ _ Ht E).
  - destruct e; try (injection H as <- <-; exact (Hm _ _ _ Ht E)).
    exact (Hh _ _ _ (Hm _ _ _ Ht E) H).
Qed.

Lemma preserves_get_c : preserves P get_c.
Proof. intros w w' r Ht H. injection H as <- <-. exact Ht. Qed.

Lemma preserves_on_chan {A} (h : handle) (f : Channel -> result A * Channel) :
  keeps_closed f -> preserves P (on_chan h f).
Proof.
  intros Hf w w' r Ht H. unfold on_chan in H.
  destruct (conns w !! h) as [ch|] eqn:E; [|injection H as <- <-; exact Ht].
  specialize (Hf ch). destruct (f ch) as [r' ch']. injection H as <- <-.
  intros h' c' HP Hl Hopen. cbn [conns _c] in Hl |- *.
  destruct (decide (h = h')) as [<- | Hne].
  - rewrite list_lookup_insert_eq in Hl by (eapply lookup_lt_Some; exact E).
    injection Hl as <-. apply (Ht h ch HP E).
    destruct (closed ch); [|reflexivity].
    cbn [snd] in Hf. rewrite Hf in Hopen by reflexivity. discriminate Hopen.
  - rewrite list_lookup_insert_ne in Hl by exact Hne.
    exact (Ht h' c' HP Hl Hopen).
Qed.

Lemma preserves_send h data : preserves P (Connection.send h data).
Proof. apply preserves_on_chan. intros ch H. exact H. Qed.

Lemma preserves_recvn h n : preserves P (Connection.recvn h n).
Proof.
  apply preserves_on_chan. intros ch H.
  destruct (splitn (Z.to_nat n) (incoming ch)) as [[a b]|]; exact H.
Qed.

Lemma preserves_recvall h : preserves P (Connection.recvall h).
Proof. apply preserves_on_chan. intros ch H. exact H. Qed.

Lemma preserves_remaining h : preserves P (Connection.remaining h).
Proof. apply preserves_on_chan. intros ch H. exact H. Qed.

(** Opening a connection: nothing else singled out is open when the
    [Host] holds none. *)
Lemma preserves_c : preserves P Host.c.
Proof.
  intros w w' r Ht H. unfold Host.c in H.
  destruct (_c w) as [h|] eqn:Ec.
  - unfold mbind, bind, get_c in H. rewrite Ec in H. injection H as <- <-.
    exact Ht.
  - unfold mbind, bind, get_c in H. rewrite Ec in H. cbn in H.
    injection H as <- <-. intros h ch HP Hl Hopen. cbn [conns _c] in Hl |- *.
    apply lookup_snoc_Some in Hl as [[_ Hl] | [-> _]]; [|reflexivity].
    specialize (Ht h ch HP Hl Hopen). congruence.
Qed.

(** Closing and dropping the held connection. *)
Lemma preserves_close_if_open : preserves P Host.close_if_open.
Proof.
  intros w w' r Ht H. unfold Host.close_if_open in H.
  unfold mbind, bind, get_c in H.
  destruct (_c w) as [h|] eqn:Ec; [|injection H as <- <-; exact Ht].
  unfold Connection.close, on_chan in H.
  destruct (conns w !! h) as [ch|] eqn:E; [|injection H as <- <-; exact Ht].
  cbn in H. injection H as <- <-.
  intros h' c' HP Hl Hopen. cbn [conns _c] in Hl |- *. exfalso.
  destruct (decide (h = h')) as [<- | Hne].
  - rewrite list_lookup_insert_eq in Hl by (eapply lookup_lt_Some; exact E).
    injection Hl as <-. discriminate Hopen.
  - rewrite list_lookup_insert_ne in Hl by exact Hne.
    specialize (Ht h' c' HP Hl Hopen). congruence.
Qed.

End Preserves.

Create HintDb tidy.

#[local] Hint Resolve preserves_ret preserves_raise preserves_lift
  preserves_get_c preserves_send preserves_recvn preserves_recvall
  preserves_remaining preserves_c preserves_close_if_open : tidy.

Ltac preserve :=
  repeat first
    [ solve [auto with tidy]
    | apply preserves_try
    | apply preserves_bind; [|intros ?]
    | match goal with
      | |- preserves _ (if ?b then _ else _) => destruct b
      | |- preserves _ (match ?o with Some _ => _ | None => _ end) => destruct o
      end ].

Section Methods.

Variable P : handle -> Prop.
Variable context : Context.

Lemma preserves_adb_send h message : preserves P (Connection.adb_send h message).
Proof. unfold Connection.adb_send. preserve. Qed.

Lemma preserves_conn_unpack h : preserves P (Connection.unpack h).
Proof. unfold Connection.unpack. preserve. Qed.

Lemma preserves_u32 h : preserves P (Connection.u32 h).
Proof. unfold Connection.u32. preserve. Qed.

Lemma preserves_flat h args : preserves P (Connection.flat h args).
Proof. unfold Connection.flat. preserve. Qed.

#[local] Hint Resolve preserves_adb_send preserves_conn_unpack preserves_u32
  preserves_flat : tidy.

Lemma preserves_host_send message : preserves P (Host.send message).
Proof. unfold Host.send. preserve. Qed.

Lemma preserves_recvl : preserves P Host.recvl.
Proof. unfold Host.recvl. preserve. Qed.

#[local] Hint Resolve preserves_host_send preserves_recvl : tidy.

Lemma preserves_transport serial : preserves P (Host.transport context serial).
Proof. unfold Host.transport, Host.log_error. preserve. Qed.

#[local] Hint Resolve preserves_transport : tidy.

Lemma preserves_autoclose fn : preserves P fn -> preserves P (Host.autoclose fn).
Proof. intros H. unfold Host.autoclose. preserve. Qed.

Lemma preserves_with_transport fn :
  preserves P fn -> preserves P (Host.with_transport context fn).
Proof. intros H. unfold Host.with_transport. preserve. Qed.

Lemma preserves_list_while fuel files : preserves P (Host.list_while fuel files).
Proof.
  revert files. induction fuel as [|fuel IH]; intros files; cbn [Host.list_while].
  - preserve.
  - apply preserves_bind; [preserve|]. intros response.
    destruct (negb (response =? "DENT")%string); [preserve|].
    do 4 (apply preserves_bind; [preserve|]; intros ?).
    destruct (Host.ignored _); apply IH.
Qed.

#[local] Hint Resolve preserves_list_while : tidy.

(** The body of every command other than [execute] keeps the world
    tidy: it opens a connection only when it holds none, and it drops
    the one it holds only after closing it. *)
Lemma preserves_body sh_string (m : method) :
  is_execute m = false -> preserves P (call context sh_string m).
Proof.
  intros Hm. destruct m; try discriminate Hm; cbn [call];
    unfold Host.kill, Host.version, Host.devices, Host.remount, Host.root,
      Host.unroot, Host.disable_verity, Host.enable_verity, Host.reconnect,
      Host.reboot, Host.reboot_bootloader, Host.send_recvall, Host.list,
      Host.write, Host.read, Host.log_error;
    try apply preserves_autoclose; try apply preserves_with_transport;
    preserve.
Qed.

End Methods.

Lemma close_if_open_clears w w' :
  Host.close_if_open w = (Ok tt, w') -> _c w' = None.
Proof.
  unfold Host.close_if_open, mbind, bind, get_c. intros H.
  destruct (_c w) as [h|] eqn:Ec; [|injection H as <-; exact Ec].
  unfold Connection.close, on_chan in H.
  destruct (conns w !! h); [|discriminate H].
  cbn in H. injection H as <-. reflexivity.
Qed.

Lemma tidy_start w : tidy (in_charge w) w.
Proof.
  intros h ch [Hge | Hc] Hl _; [|exact Hc].
  apply lookup_lt_Some in Hl. lia.
Qed.

(** A command declared [@autoclose], other than [execute], that returns
    leaves the [Host] without a connection and every connection it
    answers for closed. *)
Lemma autoclosed_releases context sh_string (m : method) (w w' : World)
    (v : value) :
  autoclosed m = true -> is_execute m = false ->
  call context sh_string m w = (Ok v, w') ->
  _c w' = None
  /\ forall (h : handle) (ch : Channel),
       in_charge w h -> conns w' !! h = Some ch -> closed ch = true.
Proof.
  intros Ha He H.
  assert (Ht : tidy (in_charge w) w') by
    exact (preserves_body _ context sh_string m He _ _ _ (tidy_start w) H).
  assert (Hc : _c w' = None).
  { destruct m; try discriminate Ha; try discriminate He; cbn [call] in H;
      unfold Host.kill, Host.devices, Host.remount, Host.root,
        Host.unroot, Host.disable_verity, Host.enable_verity, Host.reconnect,
        Host.reboot, Host.reboot_bootloader, Host.send_recvall, Host.list,
        Host.write, Host.read in H;
      unfold Host.autoclose at 1 in H;
      apply bind_inv in H as [(a & w1 & _ & H) | (e & _ & H)];
      try discriminate H;
      apply bind_inv in H as [([] & w2 & H & H2) | (e & _ & H)];
      try discriminate H;
      injection H2 as _ <-; exact (close_if_open_clears _ _ H). }
  split; [exact Hc|]. intros h ch HP Hl.
  destruct (closed ch) eqn:Eo; [reflexivity|].
  specialize (Ht h ch HP Hl Eo). congruence.
Qed.

End Release.

(** C6.  When the transport selection of a with-transport command is
    answered [FAIL], the command stops before its body: the call
    raises, and the only write on the channel is the
    [host:transport:] frame. *)
Theorem transport_fail_blocks_body (context : Context)
    (sh_string : string -> string) (m : method) (w : World)
    (rest : string) (more : list string) :
  transport_scoped m = true ->
  _c w = None ->
  pending w = (FAIL +:+ rest) :: more ->
  call context sh_string m w
  = (Raise NameError,
     mkWorld (host w) (port w) (Some (length (conns w)))
       (conns w ++
        [mkChannel rest
           [Message.__str__
              (Message.Message ("host:transport:" +:+ fmt_s (device context)))]
           false])
       more).
Proof.
  intros Hm Hc Hp.
  destruct m; try discriminate Hm; cbn [call];
    unfold Host.execute, Host.remount, Host.root, Host.unroot,
      Host.disable_verity, Host.enable_verity, Host.reconnect, Host.reboot,
      Host.reboot_bootloader, Host.send_recvall, Host.list, Host.write,
      Host.read;
    exact (Run.with_transport_fail context _ w rest more Hc Hp).
Qed.

(** C10.  [execute] writes the transport selection twice, the same
    frame both times, before its [exec:] frame.  Whatever the server
    delivers, the writes on the connection are the transport frame, the
    transport frame again, and the [exec:] frame, in this order, up to
    the point where the call stops; when both selections are answered
    by a status other than [FAIL], all three are written. *)
Theorem execute_selects_transport_twice (context : Context)
    (sh_string : string -> string) (argv : argv_t) (w : World)
    (script : string) (more : list string) :
  _c w = None ->
  pending w = script :: more ->
  let T := Message.__str__
             (Message.Message ("host:transport:" +:+ fmt_s (device context))) in
  let E := exec_frame sh_string argv in
  exists r w' ch,
    Host.execute context sh_string argv w = (r, w')
    /\ conns w' = (conns w ++ [ch])%list
    /\ (sent ch = [T] \/ sent ch = [T; T] \/ sent ch = [T; T; E])
    /\ (forall s1 s2 rest : string,
          script = s1 +:+ s2 +:+ rest ->
          String.length s1 = 4 -> s1 <> FAIL ->
          String.length s2 = 4 -> s2 <> FAIL ->
          sent ch = [T; T; E]).
Proof.
  intros Hc Hp T E.
  destruct (splitn 4 script) as [[s1 r1]|] eqn:E1.
  - apply Run.splitn_length in E1 as [-> L1].
    destruct (String.eqb_spec s1 FAIL) as [-> | N1].
    + eexists _, _, _. split; [|split; [|split]].
      * unfold Host.execute. apply (Run.with_transport_fail _ _ _ _ _ Hc Hp).
      * reflexivity.
      * left. reflexivity.
      * intros s1 s2 rest Es L1' N1' _ _. exfalso. apply N1'.
        symmetry. apply (Run.splitn_app_inv _ _ _ _ Es). now rewrite L1'.
    + destruct (splitn 4 r1) as [[s2 r2]|] eqn:E2.
      * apply Run.splitn_length in E2 as [-> L2].
        destruct (String.eqb_spec s2 FAIL) as [-> | N2].
        -- eexists _, _, _. split; [|split; [|split]].
           ++ apply (Run.execute_second_fail context sh_string argv w s1 more
                       Hc L1 N1 r2 Hp).
           ++ reflexivity.
           ++ right. left. reflexivity.
           ++ intros s1' s2' rest Es L1' _ L2' N2'. exfalso. apply N2'.
              destruct (Run.splitn_app_inv _ _ _ _ Es) as [_ Es2];
                [now rewrite L1'|].
              symmetry. apply (Run.splitn_app_inv _ _ _ _ Es2). now rewrite L2'.
        -- destruct (splitn 4 r2) as [[s3 r3]|] eqn:E3.
           ++ apply Run.splitn_length in E3 as [E3 L3].
              destruct (String.eqb_spec s3 OKAY) as [-> | N3].
              ** eexists _, _, _. split; [|split; [|split]].
                 --- apply (Run.execute_okay context sh_string argv w s1 s2 r2
                              more Hc Hp L1 L2 N1 N2 r3 E3).
                 --- reflexivity.
                 --- right. right. reflexivity.
                 --- intros. reflexivity.
              ** eexists _, _, _. split; [|split; [|split]].
                 --- apply (Run.execute_refused context sh_string argv w s1 s2 r2
                              more Hc Hp L1 L2 N1 N2 s3 r3 E3 L3 N3).
                 --- reflexivity.
                 --- right. right. reflexivity.
                 --- intros. reflexivity.
           ++ eexists _, _, _. split; [|split; [|split]].
              ** apply (Run.execute_eof context sh_string argv w s1 s2 r2
                          more Hc Hp L1 L2 N1 N2 E3).
              ** reflexivity.
              ** right. right. reflexivity.
              ** intros. reflexivity.
      * eexists _, _, _. split; [|split; [|split]].
        -- apply (Run.execute_second_eof context sh_string argv w s1 more
                    Hc L1 N1 r1 Hp E2).
        -- reflexivity.
        -- right. left. reflexivity.
        -- intros s1' s2' rest Es L1' _ L2' _. exfalso.
           destruct (Run.splitn_app_inv _ _ _ _ Es) as [_ Es2];
             [now rewrite L1'|].
           rewrite Es2, <- L2', Run.splitn_app in E2. discriminate E2.
  - eexists _, _, _. split; [|split; [|split]].
    + unfold Host.execute. apply (Run.with_transport_eof _ _ _ _ _ Hc Hp E1).
    + reflexivity.
    + left. reflexivity.
    + intros s1 s2 rest Es L1' _ _ _. exfalso.
      rewrite Es, <- L1', Run.splitn_app in E1. discriminate E1.
Qed.

Lemma execute_selects_transport_twice_witness :
  let T := "001chost:transport:emulator-5554" in
  let E := "000aexec:ls -l" in
  exists r w' ch,
    Host.execute example_context no_quoting (ArgList ["ls"; "-l"])
      (Host.__init__ example_context ["OKAYOKAYOKAYhello"]) = (r, w')
    /\ conns w' = [ch]
    /\ (sent ch = [T] \/ sent ch = [T; T] \/ sent ch = [T; T; E])
    /\ (forall s1 s2 rest : string,
          "OKAYOKAYOKAYhello" = s1 +:+ s2 +:+ rest ->
          String.length s1 = 4 -> s1 <> FAIL ->
          String.length s2 = 4 -> s2 <> FAIL ->
          sent ch = [T; T; E]).
Proof.
  exact (execute_selects_transport_twice example_context no_quoting
           (ArgList ["ls"; "-l"])
           (Host.__init__ example_context ["OKAYOKAYOKAYhello"])
           "OKAYOKAYOKAYhello" [] eq_refl eq_refl).
Defined.

Lemma transport_fail_blocks_body_witness :
  call example_context no_quoting Remount
    (Host.__init__ example_context ["FAIL0010device not found"])
  = (Raise NameError,
     mkWorld "localhost" 5037 (Some 0)
       [mkChannel "0010device not found"
          ["001chost:transport:emulator-5554"] false] []).
Proof.
  exact (transport_fail_blocks_body example_context no_quoting Remount
           (Host.__init__ example_context ["FAIL0010device not found"])
           "0010device not found" [] eq_refl eq_refl eq_refl).
Defined.

(** C2, as stated, fails.  [version()] answered [OKAY 0004 0001]
    returns with the connection still held and open; so does
    [transport()] answered [OKAY]; and [devices()] answered [FAIL]
    raises out of [autoclose] before the connection is closed. *)
Lemma connection_left_open :
  call example_context no_quoting Version
    (Host.__init__ example_context ["OKAY00040001"])
  = (Ok (VPair 4 1),
     mkWorld "localhost" 5037 (Some 0)
       [mkChannel "" ["000chost:version"] false] [])
  /\ call example_context no_quoting (Transport None)
       (Host.__init__ example_context ["OKAY"])
     = (Ok VNone,
        mkWorld "localhost" 5037 (Some 0)
          [mkChannel "" ["001chost:transport:emulator-5554"] false] [])
  /\ call example_context no_quoting (Devices false)
       (Host.__init__ example_context ["FAIL0004oops"])
     = (Raise NameError,
        mkWorld "localhost" 5037 (Some 0)
          [mkChannel "0004oops" ["000chost:devices"] false] []).
Proof. repeat split; vm_compute; reflexivity. Qed.

(** C2, amended.  A command declared [@autoclose], other than
    [execute], that returns to its caller leaves the [Host] holding no
    connection, and every connection the call opened, or held when it
    started, is closed. *)
Theorem autoclose_releases_connection (context : Context)
    (sh_string : string -> string) (m : method) (w w' : World) (v : value) :
  autoclosed m = true -> is_execute m = false ->
  call context sh_string m w = (Ok v, w') ->
  _c w' = None
  /\ forall (h : handle) (ch : Channel),
       (length (conns w) <= h \/ _c w = Some h) ->
       conns w' !! h = Some ch -> closed ch = true.
Proof. exact (Release.autoclosed_releases context sh_string m w w' v). Qed.

Lemma autoclose_releases_connection_witness :
  _c (mkWorld "localhost" 5037 None
        [mkChannel "" ["001chost:transport:emulator-5554"; "0007reboot:"] true] [])
  = None
  /\ forall (h : handle) (ch : Channel),
       (0 <= h \/ None = Some h) ->
       [mkChannel "" ["001chost:transport:emulator-5554"; "0007reboot:"] true]
         !! h = Some ch ->
       closed ch = true.
Proof.
  exact (autoclose_releases_connection example_context no_quoting Reboot
           (Host.__init__ example_context ["OKAYOKAY"])
           (mkWorld "localhost" 5037 None
              [mkChannel ""
                 ["001chost:transport:emulator-5554"; "0007reboot:"] true] [])
           (VStr "") eq_refl eq_refl eq_refl).
Defined.

(** C3, as stated, fails.  A with-transport command other than
    [execute] does not close its connection on every path: [reboot],
    when the server closes two bytes into the answer to [reboot:],
    raises [EOFError] out of both wrappers, and [remount], when the
    transport selection is answered [FAIL], raises as well; in both the
    connection stays open, held by the [Host]. *)
Lemma sibling_command_leaves_connection_open :
  call example_context no_quoting Reboot
    (Host.__init__ example_context ["OKAYOK"])
  = (Raise EOFError,
     mkWorld "localhost" 5037 (Some 0)
       [mkChannel "OK" ["001chost:transport:emulator-5554"; "0007reboot:"]
          false] [])
  /\ call example_context no_quoting Remount
       (Host.__init__ example_context ["FAIL0004oops"])
     = (Raise NameError,
        mkWorld "localhost" 5037 (Some 0)
          [mkChannel "0004oops" ["001chost:transport:emulator-5554"] false]
          []).
Proof. split; vm_compute; reflexivity. Qed.

(** C3, amended.  When [exec:] is answered [OKAY], [execute] returns
    the connection it used, still open, and the [Host] no longer holds
    it, so neither wrapper closes it.  Every other with-transport
    command that returns to its caller has closed the connections it
    answers for and holds none. *)
Theorem execute_hands_over_connection (context : Context)
    (sh_string : string -> string) (argv : argv_t) (w : World)
    (s1 s2 tail_ : string) (more : list string) :
  _c w = None ->
  pending w = (s1 +:+ s2 +:+ OKAY +:+ tail_) :: more ->
  String.length s1 = 4 -> s1 <> FAIL ->
  String.length s2 = 4 -> s2 <> FAIL ->
  (exists w' ch,
     Host.execute context sh_string argv w
     = (Ok (VConn (length (conns w))), w')
     /\ _c w' = None
     /\ conns w' !! length (conns w) = Some ch
     /\ closed ch = false
     /\ incoming ch = tail_)
  /\ (forall (m : method) (w0 w0' : World) (v : value),
        transport_scoped m = true -> is_execute m = false ->
        call context sh_string m w0 = (Ok v, w0') ->
        _c w0' = None
        /\ forall (h : handle) (ch : Channel),
             (length (conns w0) <= h \/ _c w0 = Some h) ->
             conns w0' !! h = Some ch -> closed ch = true).
Proof.
  intros Hc Hp L1 N1 L2 N2. split.
  - eexists _, _. split; [|split; [|split; [|split]]].
    + exact (Run.execute_okay context sh_string argv w s1 s2 _ more
               Hc Hp L1 L2 N1 N2 tail_ eq_refl).
    + reflexivity.
    + cbn [conns]. apply list_lookup_middle. reflexivity.
    + reflexivity.
    + reflexivity.
  - intros m w0 w0' v Hm He H.
    apply (Release.autoclosed_releases context sh_string m w0 w0' v);
      [destruct m; try discriminate Hm; reflexivity | exact He | exact H].
Qed.

Lemma execute_hands_over_connection_witness :
  exists w' ch,
    Host.execute example_context no_quoting (ArgStr "id")
      (Host.__init__ example_context ["OKAYOKAYOKAYuid=0"])
    = (Ok (VConn 0), w')
    /\ _c w' = None
    /\ conns w' !! 0 = Some ch
    /\ closed ch = false
    /\ incoming ch = "uid=0".
Proof.
  exact (proj1 (execute_hands_over_connection example_context no_quoting
                  (ArgStr "id")
                  (Host.__init__ example_context ["OKAYOKAYOKAYuid=0"])
                  "OKAY" "OKAY" "uid=0" [] eq_refl eq_refl eq_refl
                  ltac:(discriminate) eq_refl ltac:(discriminate))).
Defined.

(** ** The sync commands and [version] *)

Module Sorting.

Lemma sorted_perm (files : list string) : sorted files ≡ₚ files.
Proof. apply merge_sort_Permutation. Qed.

Lemma sorted_ascending (files : list string) :
  StronglySorted String.le (sorted files).
Proof. apply (StronglySorted_merge_sort String.le). Qed.

Lemma ignored_false (name : string) :
  Host.ignored name = false <-> name <> "" /\ name <> "." /\ name <> "..".
Proof.
  unfold Host.ignored. rewrite !orb_false_iff, !String.eqb_neq. tauto.
Qed.

Lemma In_kept_names (ds : list dent) (name : string) :
  In name (kept_names ds)
  <-> In name (map d_name ds) /\ name <> "" /\ name <> "." /\ name <> "..".
Proof.
  unfold kept_names. rewrite List.filter_In, negb_true_iff, ignored_false.
  tauto.
Qed.

End Sorting.

(** C8.  On any sequence of [DENT] records followed by another tag,
    [list] returns the names other than the empty one, [.] and [..],
    each as often as received, in ascending lexicographic order; for
    the names [a], [.], [b], [..] and the empty one it returns [a], [b]. *)
Theorem list_filters_and_sorts (context : Context) (path : string)
    (w : World) (s1 s2 : string) (ds : list dent) (endtag tail_ : string)
    (more : list string) :
  _c w = None ->
  pending w = (s1 +:+ s2 +:+ encode_dents ds +:+ endtag +:+ tail_) :: more ->
  String.length s1 = 4 -> s1 <> FAIL ->
  String.length s2 = 4 -> s2 <> FAIL ->
  String.length endtag = 4 -> endtag <> "DENT" ->
  Forall (fun d => (Z.of_nat (String.length (d_name d)) < 4294967296)%Z) ds ->
  exists (names : list string) (w' : World),
    Host.list context path w = (Ok (VList names), w')
    /\ names ≡ₚ
         List.filter (fun name => negb (Host.ignored name)) (map d_name ds)
    /\ (forall name : string,
          In name names
          <-> In name (map d_name ds)
              /\ name <> "" /\ name <> "." /\ name <> "..")
    /\ StronglySorted String.le names
    /\ (map d_name ds = ["a"; "."; "b"; ".."; ""] -> names = ["a"; "b"]).
Proof.
  intros Hc Hp L1 N1 L2 N2 Le Ne Hwf.
  exists (sorted (kept_names ds)). eexists. split; [|split; [|split; [|split]]].
  - exact (Run.list_dents context w s1 s2 _ more path Hc Hp L1 N1 L2 N2
             ds endtag tail_ eq_refl Le Ne Hwf).
  - apply Sorting.sorted_perm.
  - intros name. rewrite <- Sorting.In_kept_names.
    split; apply Permutation_in;
      [|symmetry]; apply Sorting.sorted_perm.
  - apply Sorting.sorted_ascending.
  - intros Hn. unfold kept_names. rewrite Hn. reflexivity.
Qed.

Lemma list_filters_and_sorts_witness :
  exists (names : list string) (w' : World),
    Host.list example_context "/sdcard"
      (Host.__init__ example_context
         ["OKAY" +:+ "OKAY" +:+
          encode_dents
            [mkDent 16877 4096 1 "b"; mkDent 16877 4096 1 ".";
             mkDent 33188 12 2 "a"; mkDent 16877 4096 1 ".."]
          +:+ "DONE" +:+ ""])
    = (Ok (VList names), w')
    /\ names ≡ₚ ["b"; "a"]
    /\ names = ["a"; "b"].
Proof.
  destruct (list_filters_and_sorts example_context "/sdcard"
              (Host.__init__ example_context
                 ["OKAY" +:+ "OKAY" +:+
                  encode_dents
                    [mkDent 16877 4096 1 "b"; mkDent 16877 4096 1 ".";
                     mkDent 33188 12 2 "a"; mkDent 16877 4096 1 ".."]
                  +:+ "DONE" +:+ ""])
              "OKAY" "OKAY"
              [mkDent 16877 4096 1 "b"; mkDent 16877 4096 1 ".";
               mkDent 33188 12 2 "a"; mkDent 16877 4096 1 ".."]
              "DONE" "" [] eq_refl eq_refl eq_refl ltac:(discriminate)
              eq_refl ltac:(discriminate) eq_refl ltac:(discriminate)
              ltac:(repeat constructor))
    as (names & w' & H1 & H2 & _ & _ & _).
  exists names, w'. split; [exact H1|]. split; [exact H2|].
  vm_compute in H1. injection H1 as H1 _. symmetry. exact H1.
Defined.

(** C9, as stated, fails.  Answered [OKAY], [0004], [0001], [version]
    returns a pair whose first component is [4], not [1]. *)
Lemma version_first_component_is_not_one :
  ~ exists (b : Z) (w' : World),
      Host.version (Host.__init__ example_context ["OKAY00040001"])
      = (Ok (VPair 1 b), w').
Proof. intros (b & w' & H). vm_compute in H. discriminate H. Qed.

(** C9, amended.  [version] sends [host:version]; answered [OKAY] and
    then the fields [0004] and [0001], it returns the two fields parsed
    in the order received: the pair [(4, 1)], whose second component
    is [1].  The connection stays held and open. *)
Theorem version_returns_fields_in_order (w : World) (rest : string)
    (more : list string) :
  _c w = None ->
  pending w = ("OKAY" +:+ "0004" +:+ "0001" +:+ rest) :: more ->
  Host.version w
  = (Ok (VPair 4 1),
     mkWorld (host w) (port w) (Some (length (conns w)))
       (conns w ++
        [mkChannel rest [Message.__str__ (Message.Message "host:version")] false])
       more).
Proof.
  intros Hc Hp. unfold Host.version.
  erewrite Run.bind_ok; cycle 1.
  { rewrite (Run.adb_send_fresh _ _ Hc), (Run.opened_pending _ _ _ Hp).
    exact (Run.adb_send_focus _ _ (mkChannel _ _ _) _ _ "OKAY" _ eq_refl eq_refl). }
  cbn [String.eqb Ascii.eqb Bool.eqb OKAY].
  erewrite Run.bind_ok
    by exact (Run.unpack_focus _ _ (mkChannel _ _ _) _ "0004" _ 4 eq_refl eq_refl eq_refl).
  erewrite Run.bind_ok
    by exact (Run.unpack_focus _ _ (mkChannel _ _ _) _ "0001" _ 1 eq_refl eq_refl eq_refl).
  reflexivity.
Qed.

Lemma version_returns_fields_in_order_witness :
  Host.version (Host.__init__ example_context ["OKAY00040001"])
  = (Ok (VPair 4 1),
     mkWorld "localhost" 5037 (Some 0)
       [mkChannel "" ["000chost:version"] false] []).
Proof.
  exact (version_returns_fields_in_order
           (Host.__init__ example_context ["OKAY00040001"]) "" []
           eq_refl eq_refl).
Defined.

(** C7.  A [FAIL] status is not turned into an absent result where the
    code reports it with [log.error]: [devices], [version] and
    [transport] raise [NameError] there, and, [autoclose] being skipped,
    [devices] leaves its connection open. *)
Theorem fail_status_raises :
  Host.devices false (Host.__init__ example_context ["FAIL0004oops"])
  = (Raise NameError,
     mkWorld "localhost" 5037 (Some 0)
       [mkChannel "0004oops" ["000chost:devices"] false] [])
  /\ Host.version (Host.__init__ example_context ["FAIL0004oops"])
     = (Raise NameError,
        mkWorld "localhost" 5037 (Some 0)
          [mkChannel "0004oops" ["000chost:version"] false] [])
  /\ Host.transport example_context None
       (Host.__init__ example_context ["FAIL0004oops"])
     = (Raise NameError,
        mkWorld "localhost" 5037 (Some 0)
          [mkChannel "0004oops" ["001chost:transport:emulator-5554"] false] []).
Proof. repeat split; vm_compute; reflexivity. Qed.

(** C4.  After [sync:] is answered [OKAY], [write] writes the tag
    [SEND], a 32-bit field holding the length of [path] alone, the
    string [path,mode], and then [path]; it returns what is left on the
    channel. *)
Theorem write_length_field_is_path_length (context : Context)
    (path : string) (mode : Z) (w : World) (s1 rest : string)
    (more : list string) :
  _c w = None ->
  pending w = (s1 +:+ OKAY +:+ rest) :: more ->
  String.length s1 = 4 -> s1 <> FAIL ->
  Host.write context path mode w
  = (Ok (VStr rest),
     mkWorld (host w) (port w) None
       (conns w ++
        [mkChannel ""
           [transport_frame context None; sync_frame;
            "SEND" +:+ p32 (Z.of_nat (String.length path))
            +:+ path +:+ "," +:+ str_int mode;
            path]
           true])
       more).
Proof.
  intros Hc Hp L1 N1.
  rewrite (Run.write_okay context w s1 OKAY rest more path Hc Hp L1 N1
             eq_refl mode eq_refl).
  unfold released. cbn [flat]. now rewrite BytesFacts.app_nil_r.
Qed.

Lemma write_length_field_is_path_length_witness :
  Host.write example_context "a" 493
    (Host.__init__ example_context ["OKAYOKAYdone"])
  = (Ok (VStr "done"),
     mkWorld "localhost" 5037 None
       [mkChannel ""
          ["001chost:transport:emulator-5554"; "0005sync:";
           "SEND" +:+ p32 1 +:+ "a,493"; "a"]
          true] [])
  /\ String.length "a,493" = 5
  /\ p32 1 <> p32 5.
Proof.
  split; [|split; [reflexivity | discriminate]].
  exact (write_length_field_is_path_length example_context "a" 493
           (Host.__init__ example_context ["OKAYOKAYdone"]) "OKAY" "done" []
           eq_refl eq_refl eq_refl ltac:(discriminate)).
Defined.

(** C5, as stated, fails.  Answered [WXYZ] to [sync:], neither [OKAY]
    nor [FAIL], [list] goes on and writes its [LIST] request. *)
Lemma list_proceeds_on_unknown_status :
  Host.list example_context "/"
    (Host.__init__ example_context ["OKAYWXYZDONE"])
  = (Ok (VList []),
     mkWorld "localhost" 5037 None
       [mkChannel ""
          ["001chost:transport:emulator-5554"; "0005sync:"; list_request "/"]
          true] []).
Proof. vm_compute. reflexivity. Qed.

(** C5, amended.  [write] and [read] write their request only when
    [sync:] is answered [OKAY]; on any other status they write nothing
    more and return [None].  [list] writes nothing more and returns
    [None] when [sync:] is answered [FAIL]; on any other status it
    writes its [LIST] request, and nothing after it. *)
Theorem sync_status_gates_request (context : Context) (path : string)
    (mode : Z) (w : World) (s1 status rest : string) (more : list string) :
  _c w = None ->
  pending w = (s1 +:+ status +:+ rest) :: more ->
  String.length s1 = 4 -> s1 <> FAIL ->
  String.length status = 4 ->
  let T := transport_frame context None in
  let S := sync_frame in
  (status <> OKAY ->
     Host.write context path mode w = (Ok VNone, released w rest [T; S] more)
     /\ Host.read context path w = (Ok VNone, released w rest [T; S] more))
  /\ (status = OKAY ->
        Host.write context path mode w
        = (Ok (VStr rest),
           released w ""
             [T; S;
              flat [FStr "SEND"; FInt (Z.of_nat (String.length path));
                    FStr (path +:+ "," +:+ str_int mode)];
              path] more)
        /\ Host.read context path w
           = (Ok (VStr rest),
              released w ""
                [T; S; "RECV" +:+ p32 (Z.of_nat (String.length path)); path]
                more))
  /\ (status = FAIL ->
        Host.list context path w = (Ok VNone, released w rest [T; S] more))
  /\ (status <> FAIL ->
        exists (r : result value) (w' : World) (ch : Channel),
          Host.list context path w = (r, w')
          /\ r <> Raise OutOfFuel
          /\ conns w' = (conns w ++ [ch])%list
          /\ sent ch = [T; S; list_request path]).
Proof.
  intros Hc Hp L1 N1 L2 T S. split; [|split; [|split]].
  - intros Hs. split.
    + exact (Run.write_refused context w s1 status rest more path Hc Hp L1 N1 L2
               mode Hs).
    + exact (Run.read_refused context w s1 status rest more path Hc Hp L1 N1 L2 Hs).
  - intros Hs. split.
    + exact (Run.write_okay context w s1 status rest more path Hc Hp L1 N1 L2
               mode Hs).
    + exact (Run.read_okay context w s1 status rest more path Hc Hp L1 N1 L2 Hs).
  - intros Hs.
    exact (Run.list_fail context w s1 status rest more path Hc Hp L1 N1 L2 Hs).
  - intros Hs.
    exact (Run.list_proceeds context w s1 status rest more path Hc Hp L1 N1 L2 Hs).
Qed.

Lemma sync_status_gates_request_witness :
  Host.write example_context "/data/x" 493
    (Host.__init__ example_context ["OKAYFAIL0004nope"])
  = (Ok VNone,
     mkWorld "localhost" 5037 None
       [mkChannel "0004nope"
          ["001chost:transport:emulator-5554"; "0005sync:"] true] [])
  /\ Host.list example_context "/data/x"
       (Host.__init__ example_context ["OKAYFAIL0004nope"])
     = (Ok VNone,
        mkWorld "localhost" 5037 None
          [mkChannel "0004nope"
             ["001chost:transport:emulator-5554"; "0005sync:"] true] []).
Proof.
  destruct (sync_status_gates_request example_context "/data/x" 493
              (Host.__init__ example_context ["OKAYFAIL0004nope"])
              "OKAY" "FAIL" "0004nope" [] eq_refl eq_refl eq_refl
              ltac:(discriminate) eq_refl)
    as (Hw & _ & Hl & _).
  split; [exact (proj1 (Hw ltac:(discriminate))) | exact (Hl eq_refl)].
Defined.

(** * Further properties of the code *)

(** ** [pack], [unpack] and [Message] *)

Module CodecMore.
Import Bytes BytesFacts Codec.

Lemma hex_nonempty (n : N) : 1 <= String.length (hex n).
Proof.
  unfold hex.
  apply (length_hex_of _ (N.to_nat (N.log2 n))). apply hex_fuel.
Qed.

Lemma all_hex_hex (n : N) : all is_hexdigit (hex n) = true.
Proof. apply all_hex_hex_of. Qed.

(** Below [16^k] at most [k] digits (one at least)... *)
Lemma length_hex_upper (n : N) (k : nat) :
  (n < 16 ^ N.of_nat (S k))%N -> String.length (hex n) <= S k.
Proof. intros H. unfold hex. now apply length_hex_of. Qed.

(** ... and from [16^k] on more than [k]. *)
Lemma length_hex_of_lower (f k : nat) (n : N) :
  (n < 16 ^ N.of_nat (S f))%N -> (16 ^ N.of_nat k <= n)%N ->
  k < String.length (hex_of (S f) n).
Proof.
  revert n k. induction f as [|f IH]; intros n k Hn Hk.
  - destruct k as [|k].
    + cbn [hex_of]. rewrite length_app. cbn. lia.
    + exfalso. change (16 ^ N.of_nat 1)%N with 16%N in Hn.
      assert (16 <= 16 ^ N.of_nat (S k))%N.
      { replace (N.of_nat (S k)) with (N.succ (N.of_nat k)) by lia.
        rewrite N.pow_succ_r'. pose proof (N.pow_nonzero 16 (N.of_nat k)). lia. }
      lia.
  - destruct k as [|k].
    + remember (S f) as f1. cbn [hex_of]. rewrite length_app. cbn. lia.
    + replace (N.of_nat (S k)) with (N.succ (N.of_nat k)) in Hk by lia.
      rewrite N.pow_succ_r' in Hk.
      replace (N.of_nat (S (S f))) with (N.succ (N.of_nat (S f))) in Hn by lia.
      rewrite N.pow_succ_r' in Hn.
      assert (Hq1 : (n / 16 < 16 ^ N.of_nat (S f))%N)
        by (apply N.Div0.div_lt_upper_bound; exact Hn).
      assert (Hq2 : (16 ^ N.of_nat k <= n / 16)%N)
        by (apply N.div_le_lower_bound; [discriminate | exact Hk]).
      assert (Hq3 : (n / 16 =? 0)%N = false).
      { apply N.eqb_neq. pose proof (N.pow_nonzero 16 (N.of_nat k)). lia. }
      remember (S f) as f1. cbn [hex_of]. rewrite Hq3, length_app.
      subst f1. specialize (IH _ _ Hq1 Hq2). cbn [String.length]. lia.
Qed.

Lemma length_hex_lower (n : N) (k : nat) :
  (16 ^ N.of_nat k <= n)%N -> k < String.length (hex n).
Proof. intros H. unfold hex. apply length_hex_of_lower; [apply hex_fuel | exact H]. Qed.

(** [int(., 16)] on a minus sign followed by hexadecimal digits. *)
Lemma int16_minus_all_hex (s : string) :
  s <> "" -> all is_hexdigit s = true ->
  int16 (String "-" s) = Ok (- Z.of_N (fst (digits 0 s)))%Z.
Proof.
  intros Hne Hall. destruct s as [|c1 s]; [contradiction|].
  pose proof Hall as Hall'. cbn in Hall'. apply andb_prop in Hall' as [H1 Hs].
  unfold int16.
  change (lstrip (String "-" (String c1 s))) with (String "-" (String c1 s)).
  change (strip_sign (String "-" (String c1 s))) with (true, String c1 s).
  cbv beta iota zeta.
  assert (H0x : strip_0x (String c1 s) = String c1 s).
  { destruct s as [|c2 s]; [reflexivity|]. unfold strip_0x.
    cbn in Hs. apply andb_prop in Hs as [H2 _].
    destruct (hexdigit_not_other c2 H2) as (_ & _ & _ & Hx & HX).
    rewrite Hx, HX. cbn. now rewrite andb_false_r. }
  rewrite H0x, H1. rewrite (surjective_pairing (digits 0 _)).
  rewrite (digits_all_hex _ _ Hall). reflexivity.
Qed.

Lemma not_hexdigit_not_zero (c : ascii) :
  is_hexdigit c = false -> Ascii.eqb c "0" = false.
Proof.
  destruct c as [[] [] [] [] [] [] [] []]; vm_compute; intros H;
    solve [discriminate H | reflexivity].
Qed.

Lemma lstrip_no_hex (s : string) :
  all (fun c => negb (is_hexdigit c)) s = true ->
  all (fun c => negb (is_hexdigit c)) (lstrip s) = true.
Proof.
  induction s as [|c s IH]; intros H; [reflexivity|].
  cbn [lstrip]. destruct (is_space c); [|exact H].
  apply IH. cbn in H. now apply andb_prop in H as [_ H].
Qed.

(** The frame prefix of a short payload parses to the payload's length. *)
Lemma unpack_fmt_04x (n : nat) :
  (Z.of_nat n < 65536)%Z ->
  String.length (fmt_04x (Z.of_nat n)) = 4
  /\ unpack (fmt_04x (Z.of_nat n)) = Ok (Z.of_nat n).
Proof.
  intros Hn. destruct (fmt_04x_small _ Hn) as (Hlen & Hall & Hdig).
  split; [exact Hlen|]. unfold unpack. rewrite int16_all_hex.
  - rewrite Hdig. cbn [fst]. f_equal. lia.
  - intros E. rewrite E in Hlen. discriminate Hlen.
  - exact Hall.
Qed.

End CodecMore.

(** X1.  [unpack] undoes [pack] on every integer, negative ones and
    ones that need more than four digits included. *)
Theorem unpack_pack (n : Z) : unpack (pack n) = Ok n.
Proof.
  unfold unpack, pack, fmt_04x.
  pose proof (CodecMore.hex_nonempty (Z.abs_N n)) as Hne.
  pose proof (CodecMore.all_hex_hex (Z.abs_N n)) as Hall.
  assert (Hs : forall j, Bytes.zeros j +:+ hex (Z.abs_N n) <> ""
                         /\ Bytes.all is_hexdigit (Bytes.zeros j +:+ hex (Z.abs_N n)) = true
                         /\ fst (digits 0 (Bytes.zeros j +:+ hex (Z.abs_N n))) = Z.abs_N n).
  { intros j. repeat split.
    - intros E. apply (f_equal String.length) in E.
      rewrite BytesFacts.length_app in E.
      change (String.length "") with 0 in E. lia.
    - rewrite BytesFacts.all_app, Codec.all_hex_zeros. exact Hall.
    - rewrite Codec.digits_zeros, Codec.digits_hex. reflexivity. }
  destruct (n <? 0)%Z eqn:Hneg; cbv beta iota zeta.
  - apply Z.ltb_lt in Hneg.
    generalize (4 - String.length "-" - String.length (hex (Z.abs_N n))).
    intros j. destruct (Hs j) as (H1 & H2 & H3).
    change ("-" +:+ Bytes.zeros j +:+ hex (Z.abs_N n))
      with (String "-" (Bytes.zeros j +:+ hex (Z.abs_N n))).
    rewrite (CodecMore.int16_minus_all_hex _ H1 H2), H3. f_equal. lia.
  - apply Z.ltb_ge in Hneg.
    generalize (4 - String.length "" - String.length (hex (Z.abs_N n))).
    intros j. destruct (Hs j) as (H1 & H2 & H3).
    rewrite BytesFacts.app_nil_l.
    rewrite (Codec.int16_all_hex _ H1 H2), H3. f_equal. lia.
Qed.

(** X2.  For a non-negative value, [pack] gives exactly four characters
    if and only if the value is below [65536]; from [65536] on the
    result is longer, so a frame's length prefix no longer ends after
    four bytes. *)
Theorem pack_width (n : Z) :
  (0 <= n)%Z ->
  (String.length (pack n) = 4 <-> (n < 65536)%Z).
Proof.
  intros Hn. unfold pack, fmt_04x.
  assert (Hs : (n <? 0)%Z = false) by (apply Z.ltb_ge; lia).
  rewrite Hs, BytesFacts.app_nil_l, BytesFacts.length_app, BytesFacts.length_zeros.
  cbn [String.length].
  pose proof (CodecMore.hex_nonempty (Z.abs_N n)) as H1.
  split.
  - intros Hlen. destruct (Z.lt_ge_cases n 65536) as [Hlt | Hge]; [exact Hlt|].
    exfalso.
    pose proof (CodecMore.length_hex_lower (Z.abs_N n) 4) as H4.
    change (16 ^ N.of_nat 4)%N with 65536%N in H4.
    specialize (H4 ltac:(lia)). lia.
  - intros Hlt.
    pose proof (CodecMore.length_hex_upper (Z.abs_N n) 3) as H4.
    change (16 ^ N.of_nat 4)%N with 65536%N in H4.
    specialize (H4 ltac:(lia)). lia.
Qed.

Lemma pack_width_witness :
  String.length (pack 65535) = 4 <-> (65535 < 65536)%Z.
Proof. exact (pack_width 65535 ltac:(lia)). Defined.

(** X3.  A frame with a payload shorter than [65536] bytes is four
    bytes longer than the payload, and dropping its first four bytes
    gives the payload back. *)
Theorem frame_payload (p : string) :
  (Z.of_nat (String.length p) < 65536)%Z ->
  String.length (Message.__str__ (Message.Message p)) = 4 + String.length p
  /\ Bytes.drop 4 (Message.__str__ (Message.Message p)) = p.
Proof.
  intros Hp. unfold Message.__str__. cbn [Message.string_].
  destruct (Codec.fmt_04x_small _ Hp) as (Hlen & _ & _).
  split.
  - rewrite BytesFacts.length_app, Hlen. reflexivity.
  - rewrite <- Hlen at 1. apply BytesFacts.drop_app.
Qed.

Lemma frame_payload_witness :
  String.length (Message.__str__ (Message.Message "host:kill")) = 4 + 9
  /\ Bytes.drop 4 (Message.__str__ (Message.Message "host:kill")) = "host:kill".
Proof. exact (frame_payload "host:kill" ltac:(cbn; lia)). Defined.

(** X4.  [unpack] raises [ValueError] on every string that holds no
    hexadecimal digit: the empty string, white space, a status word
    such as [OKYY], a lone sign. *)
Theorem unpack_rejects_digitless (s : string) :
  Bytes.all (fun c => negb (is_hexdigit c)) s = true ->
  unpack s = Raise ValueError.
Proof.
  intros H. apply CodecMore.lstrip_no_hex in H.
  unfold unpack, int16. destruct (lstrip s) as [|c1 t] eqn:E.
  - reflexivity.
  - assert (Ht : forall u, Bytes.all (fun c => negb (is_hexdigit c)) u = true ->
                           match strip_0x u with
                           | String c _ =>
                               if is_hexdigit c then
                                 let '(v, rest) := digits 0 (strip_0x u) in
                                 if Bytes.all is_space rest
                                 then Ok (if true then (- Z.of_N v)%Z else Z.of_N v)
                                 else Raise ValueError
                               else Raise ValueError
                           | "" => Raise ValueError
                           end = Raise ValueError
                           /\ strip_0x u = u
                           /\ match u with
                              | String c _ => is_hexdigit c = false
                              | "" => True
                              end).
    { intros u Hu. assert (H0 : strip_0x u = u).
      { destruct u as [|a [|b u]]; try reflexivity. unfold strip_0x.
        cbn in Hu. apply andb_prop in Hu as [Ha _]. apply negb_true_iff in Ha.
        now rewrite (CodecMore.not_hexdigit_not_zero _ Ha). }
      rewrite H0. destruct u as [|a u]; [now repeat split|].
      cbn in Hu. apply andb_prop in Hu as [Ha _]. apply negb_true_iff in Ha.
      rewrite Ha. now repeat split. }
    pose proof H as Hc. cbn in Hc. apply andb_prop in Hc as [Hc1 Htl].
    unfold strip_sign.
    destruct (Ascii.eqb c1 "-"); [|destruct (Ascii.eqb c1 "+")].
    + destruct (Ht t Htl) as (_ & H0 & Hh). rewrite H0.
      destruct t as [|a t]; [reflexivity|]. now rewrite Hh.
    + destruct (Ht t Htl) as (_ & H0 & Hh). rewrite H0.
      destruct t as [|a t]; [reflexivity|]. now rewrite Hh.
    + destruct (Ht (String c1 t) H) as (_ & H0 & Hh). rewrite H0.
      now rewrite Hh.
Qed.

Lemma unpack_rejects_digitless_witness : unpack "OKYY" = Raise ValueError.
Proof. exact (unpack_rejects_digitless "OKYY" eq_refl). Defined.

(** ** Commands of the [Host] *)

Module RunMore.
Import Bytes BytesFacts Run.

(** With no connection held, whatever starts with [self.c] runs as it
    would right after the connection was opened. *)
Lemma fresh_then {A} (f : handle -> M A) w :
  _c w = None ->
  (h ← Host.c; f h) w = (h ← Host.c; f h) (opened w).
Proof.
  intros H. erewrite bind_ok by (apply c_fresh; exact H).
  now erewrite bind_ok by apply c_focus.
Qed.

Lemma recvl_focus w pre ch pe (p rest : string) :
  incoming ch = Message.__str__ (Message.Message p) +:+ rest ->
  (Z.of_nat (String.length p) < 65536)%Z ->
  Host.recvl (focus w pre ch pe)
  = (Ok p, focus w pre (mkChannel rest (sent ch) (closed ch)) pe).
Proof.
  intros Hin Hp. unfold Message.__str__ in Hin. cbn [Message.string_] in Hin.
  rewrite app_assoc in Hin.
  destruct (CodecMore.unpack_fmt_04x _ Hp) as [Hlen Hu].
  unfold Host.recvl.
  erewrite bind_ok by exact (unpack_focus _ _ _ _ _ _ _ Hin Hlen Hu).
  apply (recvn_focus _ _ (mkChannel _ _ _)); [reflexivity|].
  now rewrite Nat2Z.id.
Qed.

Lemma recvl_fresh w : _c w = None -> Host.recvl w = Host.recvl (opened w).
Proof.
  intros H. unfold Host.recvl, mbind, bind, Connection.unpack.
  rewrite (c_fresh w H). unfold opened. rewrite c_focus. reflexivity.
Qed.

Lemma splitn_drop (s : string) :
  (exists a b, splitn 4 s = Some (a, b) /\ s = a +:+ b /\ String.length a = 4)
  \/ splitn 4 s = None.
Proof.
  destruct (splitn 4 s) as [[a b]|] eqn:E; [left | now right].
  exists a, b. split; [reflexivity|]. now apply splitn_length.
Qed.

End RunMore.

(** X5.  [recvl] reads back what [Message] frames: on a connection that
    delivers the frame of a payload shorter than [65536] bytes it
    returns the payload and leaves what follows the frame unread. *)
Theorem recvl_reads_frame (w : World) (p rest : string) (more : list string) :
  _c w = None ->
  pending w = (Message.__str__ (Message.Message p) +:+ rest) :: more ->
  (Z.of_nat (String.length p) < 65536)%Z ->
  Host.recvl w
  = (Ok p,
     mkWorld (host w) (port w) (Some (length (conns w)))
       (conns w ++ [mkChannel rest [] false]) more).
Proof.
  intros Hc Hp Hlen.
  rewrite (RunMore.recvl_fresh w Hc), (Run.opened_pending _ _ _ Hp).
  exact (RunMore.recvl_focus w (conns w) (mkChannel _ [] false) more p rest
           eq_refl Hlen).
Qed.

Lemma recvl_reads_frame_witness :
  Host.recvl (Host.__init__ example_context ["0005helloOKAY"])
  = (Ok "hello",
     mkWorld "localhost" 5037 (Some 0) [mkChannel "OKAY" [] false] []).
Proof.
  exact (recvl_reads_frame (Host.__init__ example_context ["0005helloOKAY"])
           "hello" "OKAY" [] eq_refl eq_refl ltac:(cbn; lia)).
Defined.

(** X6.  [devices] sends [host:devices], or [host:devices-l] when
    [long] is set; answered [OKAY] and a length-prefixed block shorter
    than [65536] bytes it returns the block, and its connection ends
    closed with the [Host] holding none. *)
Theorem devices_returns_block (long : bool) (w : World)
    (payload rest : string) (more : list string) :
  _c w = None ->
  pending w
  = (OKAY +:+ Message.__str__ (Message.Message payload) +:+ rest) :: more ->
  (Z.of_nat (String.length payload) < 65536)%Z ->
  Host.devices long w
  = (Ok (VStr payload),
     mkWorld (host w) (port w) None
       (conns w ++
        [mkChannel rest
           [Message.__str__
              (Message.Message
                 (if long then "host:devices-l" else "host:devices"))]
           true])
       more).
Proof.
  intros Hc Hp Hlen. unfold Host.devices, Host.autoclose.
  erewrite Run.bind_ok; cycle 1.
  { erewrite Run.bind_ok; cycle 1.
    { rewrite (Run.adb_send_fresh _ _ Hc), (Run.opened_pending _ _ _ Hp).
      exact (Run.adb_send_focus _ _ (mkChannel _ _ _) _ _ OKAY _ eq_refl eq_refl). }
    cbn [String.eqb Ascii.eqb Bool.eqb OKAY].
    erewrite Run.bind_ok
      by exact (RunMore.recvl_focus _ _ (mkChannel _ _ _) _ payload rest eq_refl Hlen).
    reflexivity. }
  erewrite Run.bind_ok by apply Run.close_if_open_focus.
  destruct long; reflexivity.
Qed.

Lemma devices_returns_block_witness :
  Host.devices true (Host.__init__ example_context ["OKAY0009emulator-"])
  = (Ok (VStr "emulator-"),
     mkWorld "localhost" 5037 None
       [mkChannel "" ["000ehost:devices-l"] true] []).
Proof.
  exact (devices_returns_block true
           (Host.__init__ example_context ["OKAY0009emulator-"])
           "emulator-" "" [] eq_refl eq_refl ltac:(cbn; lia)).
Defined.

(** X7.  [kill] never raises: whether the server answers the
    [host:kill] frame or closes at once, the call returns [None], the
    frame is the only write, and the connection ends closed with the
    [Host] holding none. *)
Theorem kill_never_raises (w : World) :
  _c w = None ->
  exists left : string,
    Host.kill w
    = (Ok VNone,
       mkWorld (host w) (port w) None
         (conns w ++
          [mkChannel left [Message.__str__ (Message.Message "host:kill")] true])
         (tail (pending w))).
Proof.
  intros Hc. unfold Host.kill, Host.autoclose.
  set (script := match pending w with s :: _ => s | [] => "" end).
  destruct (RunMore.splitn_drop script) as [(a & b & _ & Es & La) | En].
  - exists b. erewrite Run.bind_ok; cycle 1.
    { erewrite Run.bind_ok; cycle 1.
      { unfold try_except_EOFError.
        erewrite Run.bind_ok; cycle 1.
        { rewrite (Run.adb_send_fresh _ _ Hc). unfold opened. fold script.
          exact (Run.adb_send_focus _ _ (mkChannel _ _ _) _ _ a b Es La). }
        reflexivity. }
      reflexivity. }
    erewrite Run.bind_ok by apply Run.close_if_open_focus. reflexivity.
  - exists script. erewrite Run.bind_ok; cycle 1.
    { erewrite Run.bind_ok; cycle 1.
      { unfold try_except_EOFError.
        erewrite Run.bind_raise; cycle 1.
        { rewrite (Run.adb_send_fresh _ _ Hc). unfold opened. fold script.
          exact (Run.adb_send_eof _ _ (mkChannel _ _ _) _ _ En). }
        reflexivity. }
      reflexivity. }
    erewrite Run.bind_ok by apply Run.close_if_open_focus. reflexivity.
Qed.

Lemma kill_never_raises_witness :
  exists left : string,
    Host.kill (Host.__init__ example_context [])
    = (Ok VNone,
       mkWorld "localhost" 5037 None
         [mkChannel left ["0009host:kill"] true] []).
Proof. exact (kill_never_raises (Host.__init__ example_context []) eq_refl). Defined.

(** X8.  The fire-and-read commands ([remount], [root], [unroot],
    [disable_verity], [enable_verity], [reconnect], [reboot],
    [reboot_bootloader]) do not look at the status that answers their
    command: whatever the four bytes are, [FAIL] included, the call
    returns all the bytes that follow them, after writing the transport
    frame and the command's frame, and the connection ends closed. *)
Theorem fire_and_read_ignores_status (context : Context)
    (sh_string : string -> string) (m : method) (cmd : string) (w : World)
    (s1 status rest : string) (more : list string) :
  command_string m = Some cmd ->
  _c w = None ->
  pending w = (s1 +:+ status +:+ rest) :: more ->
  String.length s1 = 4 -> s1 <> FAIL ->
  String.length status = 4 ->
  call context sh_string m w
  = (Ok (VStr rest),
     mkWorld (host w) (port w) None
       (conns w ++
        [mkChannel ""
           [transport_frame context None;
            Message.__str__ (Message.Message cmd)]
           true])
       more).
Proof.
  intros Hm Hc Hp L1 N1 L2.
  assert (H : Host.send_recvall context cmd w
              = (Ok (VStr rest),
                 released w ""
                   [transport_frame context None;
                    Message.__str__ (Message.Message cmd)] more)).
  { unfold Host.send_recvall.
    apply (Run.with_transport_returns context w s1 _ more Hc Hp L1 N1
             _ _ (mkChannel "" _ false)).
    erewrite Run.bind_ok
      by exact (Run.adb_send_focus _ _ (mkChannel _ _ _) _ _ status rest eq_refl L2).
    erewrite Run.bind_ok by apply Run.recvall_focus. reflexivity. }
  destruct m; try discriminate Hm; injection Hm as <-; exact H.
Qed.

Lemma fire_and_read_ignores_status_witness :
  call example_context no_quoting Root
    (Host.__init__ example_context ["OKAYFAIL0005nope!"])
  = (Ok (VStr "0005nope!"),
     mkWorld "localhost" 5037 None
       [mkChannel "" ["001chost:transport:emulator-5554"; "0005root:"] true]
       []).
Proof.
  exact (fire_and_read_ignores_status example_context no_quoting Root "root:"
           (Host.__init__ example_context ["OKAYFAIL0005nope!"])
           "OKAY" "FAIL" "0005nope!" [] eq_refl eq_refl eq_refl eq_refl
           ltac:(discriminate) eq_refl).
Defined.

(** X9.  When [exec:] is answered by a status other than [OKAY],
    [execute] returns [None] and, unlike on [OKAY], its connection ends
    closed with the [Host] holding none. *)
Theorem execute_refused_closes (context : Context)
    (sh_string : string -> string) (argv : argv_t) (w : World)
    (s1 s2 status rest : string) (more : list string) :
  _c w = None ->
  pending w = (s1 +:+ s2 +:+ status +:+ rest) :: more ->
  String.length s1 = 4 -> s1 <> FAIL ->
  String.length s2 = 4 -> s2 <> FAIL ->
  String.length status = 4 -> status <> OKAY ->
  Host.execute context sh_string argv w
  = (Ok VNone,
     mkWorld (host w) (port w) None
       (conns w ++
        [mkChannel rest
           [transport_frame context None; transport_frame context None;
            exec_frame sh_string argv]
           true])
       more).
Proof.
  intros Hc Hp L1 N1 L2 N2 L3 N3.
  exact (Run.execute_refused context sh_string argv w s1 s2 _ more
           Hc Hp L1 L2 N1 N2 status rest eq_refl L3 N3).
Qed.

Lemma execute_refused_closes_witness :
  Host.execute example_context no_quoting (ArgStr "id")
    (Host.__init__ example_context ["OKAYOKAYFAIL0004oops"])
  = (Ok VNone,
     mkWorld "localhost" 5037 None
       [mkChannel "0004oops"
          ["001chost:transport:emulator-5554";
           "001chost:transport:emulator-5554"; "0007exec:id"]
          true] []).
Proof.
  exact (execute_refused_closes example_context no_quoting (ArgStr "id")
           (Host.__init__ example_context ["OKAYOKAYFAIL0004oops"])
           "OKAY" "OKAY" "FAIL" "0004oops" [] eq_refl eq_refl eq_refl
           ltac:(discriminate) eq_refl ltac:(discriminate) eq_refl
           ltac:(discriminate)).
Defined.

(** ** Connections across calls *)

(** X10.  No command other than [execute] loses track of a connection,
    however the call ends: a connection it opened, or held when it
    started, that is still open afterwards is the one the [Host]
    holds, also when the call raised. *)
Theorem no_connection_leaked (context : Context)
    (sh_string : string -> string) (m : method) (w w' : World)
    (r : result value) :
  is_execute m = false ->
  call context sh_string m w = (r, w') ->
  forall (h : handle) (ch : Channel),
    (length (conns w) <= h \/ _c w = Some h) ->
    conns w' !! h = Some ch -> closed ch = false -> _c w' = Some h.
Proof.
  intros He H.
  exact (Release.preserves_body _ context sh_string m He _ _ _
           (Release.tidy_start w) H).
Qed.

Lemma no_connection_leaked_witness :
  call example_context no_quoting (Devices false)
    (Host.__init__ example_context ["FAIL0004oops"])
  = (Raise NameError,
     mkWorld "localhost" 5037 (Some 0)
       [mkChannel "0004oops" ["000chost:devices"] false] [])
  /\ _c (mkWorld "localhost" 5037 (Some 0)
           [mkChannel "0004oops" ["000chost:devices"] false] [])
     = Some 0.
Proof.
  split; [reflexivity|].
  exact (no_connection_leaked example_context no_quoting (Devices false)
           (Host.__init__ example_context ["FAIL0004oops"])
           (mkWorld "localhost" 5037 (Some 0)
              [mkChannel "0004oops" ["000chost:devices"] false] [])
           (Raise NameError) eq_refl eq_refl
           0 (mkChannel "0004oops" ["000chost:devices"] false)
           (or_introl (le_n 0)) eq_refl eq_refl).
Defined.

(** X11.  What one call leaves open the next one cleans up: after any
    command other than [execute], however it ended, an [@autoclose]
    command other than [execute] that returns leaves the [Host] holding
    no connection and every connection of both calls closed. *)
Theorem next_command_cleans_up (context : Context)
    (sh_string : string -> string) (m1 m2 : method) (w w1 w2 : World)
    (r1 : result value) (v : value) :
  is_execute m1 = false -> is_execute m2 = false -> autoclosed m2 = true ->
  call context sh_string m1 w = (r1, w1) ->
  call context sh_string m2 w1 = (Ok v, w2) ->
  _c w2 = None
  /\ forall (h : handle) (ch : Channel),
       (length (conns w) <= h \/ _c w = Some h) ->
       conns w2 !! h = Some ch -> closed ch = true.
Proof.
  intros He1 He2 Ha H1 H2.
  pose proof (Release.preserves_body _ context sh_string m1 He1 _ _ _
                (Release.tidy_start w) H1) as Ht1.
  pose proof (Release.preserves_body _ context sh_string m2 He2 _ _ _
                Ht1 H2) as Ht2.
  destruct (Release.autoclosed_releases context sh_string m2 w1 w2 v Ha He2 H2)
    as [Hc _].
  split; [exact Hc|]. intros h ch HP Hl.
  destruct (closed ch) eqn:Eo; [reflexivity|].
  specialize (Ht2 h ch HP Hl Eo). congruence.
Qed.

Lemma next_command_cleans_up_witness :
  _c (mkWorld "localhost" 5037 None
        [mkChannel "oops" ["000chost:devices"; "0009host:kill"] true] [])
  = None
  /\ forall (h : handle) (ch : Channel),
       (0 <= h \/ None = Some h) ->
       [mkChannel "oops" ["000chost:devices"; "0009host:kill"] true] !! h
       = Some ch ->
       closed ch = true.
Proof.
  exact (next_command_cleans_up example_context no_quoting (Devices false) Kill
           (Host.__init__ example_context ["FAIL0004oops"])
           (mkWorld "localhost" 5037 (Some 0)
              [mkChannel "0004oops" ["000chost:devices"] false] [])
           (mkWorld "localhost" 5037 None
              [mkChannel "oops" ["000chost:devices"; "0009host:kill"] true] [])
           (Raise NameError) VNone eq_refl eq_refl eq_refl eq_refl eq_refl).
Defined.

(** X12.  [version] keeps its connection, and the command that follows
    talks on it: [version()] then [devices()] use one connection, on
    which both frames are written, and [devices] closes it.  [version]
    returns the two fields after [OKAY], parsed, in the order received. *)
Theorem version_connection_is_reused (long : bool) (w : World)
    (f1 f2 payload rest : string) (a b : Z) (more : list string) :
  _c w = None ->
  pending w
  = (OKAY +:+ f1 +:+ f2 +:+ OKAY
     +:+ Message.__str__ (Message.Message payload) +:+ rest) :: more ->
  String.length f1 = 4 -> unpack f1 = Ok a ->
  String.length f2 = 4 -> unpack f2 = Ok b ->
  (Z.of_nat (String.length payload) < 65536)%Z ->
  (v ← Host.version; d ← Host.devices long; mret (v, d)) w
  = (Ok (VPair a b, VStr payload),
     mkWorld (host w) (port w) None
       (conns w ++
        [mkChannel rest
           [Message.__str__ (Message.Message "host:version");
            Message.__str__
              (Message.Message
                 (if long then "host:devices-l" else "host:devices"))]
           true])
       more).
Proof.
  intros Hc Hp L1 U1 L2 U2 Hlen.
  erewrite Run.bind_ok; cycle 1.
  { unfold Host.version.
    erewrite Run.bind_ok; cycle 1.
    { rewrite (Run.adb_send_fresh _ _ Hc), (Run.opened_pending _ _ _ Hp).
      exact (Run.adb_send_focus _ _ (mkChannel _ _ _) _ _ OKAY _ eq_refl eq_refl). }
    cbn [String.eqb Ascii.eqb Bool.eqb OKAY].
    erewrite Run.bind_ok
      by exact (Run.unpack_focus _ _ (mkChannel _ _ _) _ f1 _ a eq_refl L1 U1).
    erewrite Run.bind_ok
      by exact (Run.unpack_focus _ _ (mkChannel _ _ _) _ f2 _ b eq_refl L2 U2).
    reflexivity. }
  erewrite Run.bind_ok; cycle 1.
  { unfold Host.devices, Host.autoclose.
    erewrite Run.bind_ok; cycle 1.
    { erewrite Run.bind_ok
        by exact (Run.adb_send_focus _ _ (mkChannel _ _ _) _ _ OKAY _ eq_refl eq_refl).
      cbn [String.eqb Ascii.eqb Bool.eqb OKAY].
      erewrite Run.bind_ok
        by exact (RunMore.recvl_focus _ _ (mkChannel _ _ _) _ payload rest
                    eq_refl Hlen).
      reflexivity. }
    erewrite Run.bind_ok by apply Run.close_if_open_focus. reflexivity. }
  destruct long; reflexivity.
Qed.

Lemma version_connection_is_reused_witness :
  (v ← Host.version; d ← Host.devices false; mret (v, d))
    (Host.__init__ example_context ["OKAY0004001fOKAY0002ab"])
  = (Ok (VPair 4 31, VStr "ab"),
     mkWorld "localhost" 5037 None
       [mkChannel "" ["000chost:version"; "000chost:devices"] true] []).
Proof.
  exact (version_connection_is_reused false
           (Host.__init__ example_context ["OKAY0004001fOKAY0002ab"])
           "0004" "001f" "ab" "" 4 31 [] eq_refl eq_refl eq_refl eq_refl
           eq_refl eq_refl ltac:(cbn; lia)).
Defined.

(** X13.  [transport] takes every status other than [FAIL] for
    success: it returns [None] and keeps the connection, open, for the
    command that follows.  The frame names [serial] when one is given
    and is not empty, and the context's device otherwise. *)
Theorem transport_accepts_any_status_but_fail (context : Context)
    (serial : option string) (w : World) (status rest : string)
    (more : list string) :
  _c w = None ->
  pending w = (status +:+ rest) :: more ->
  String.length status = 4 -> status <> FAIL ->
  Host.transport context serial w
  = (Ok VNone,
     mkWorld (host w) (port w) (Some (length (conns w)))
       (conns w ++
        [mkChannel rest
           [Message.__str__
              (Message.Message
                 ("host:transport:" +:+
                  match serial with
                  | Some (String c s) => String c s
                  | _ => fmt_s (device context)
                  end))]
           false])
       more).
Proof.
  intros Hc Hp L N.
  rewrite (Run.transport_fresh _ _ _ Hc), (Run.opened_pending _ _ _ Hp).
  rewrite (Run.transport_ok _ _ _ _ (mkChannel _ _ _) _ status rest eq_refl L N).
  unfold transport_frame. destruct serial as [[|c s]|]; reflexivity.
Qed.

Lemma transport_accepts_any_status_but_fail_witness :
  Host.transport example_context (Some "")
    (Host.__init__ example_context ["WXYZ"])
  = (Ok VNone,
     mkWorld "localhost" 5037 (Some 0)
       [mkChannel "" ["001chost:transport:emulator-5554"] false] []).
Proof.
  exact (transport_accepts_any_status_but_fail example_context (Some "")
           (Host.__init__ example_context ["WXYZ"]) "WXYZ" "" []
           eq_refl eq_refl eq_refl ltac:(discriminate)).
Defined.

(** X14.  [version] and [devices] take every status other than [OKAY]
    for a failure: they reach [log.error] and raise [NameError], and
    the connection stays open, held by the [Host]. *)
Theorem version_devices_reject_other_status (long : bool) (w : World)
    (status rest : string) (more : list string) :
  _c w = None ->
  pending w = (status +:+ rest) :: more ->
  String.length status = 4 -> status <> OKAY ->
  Host.version w
  = (Raise NameError,
     mkWorld (host w) (port w) (Some (length (conns w)))
       (conns w ++
        [mkChannel rest [Message.__str__ (Message.Message "host:version")]
           false])
       more)
  /\ Host.devices long w
     = (Raise NameError,
        mkWorld (host w) (port w) (Some (length (conns w)))
          (conns w ++
           [mkChannel rest
              [Message.__str__
                 (Message.Message
                    (if long then "host:devices-l" else "host:devices"))]
              false])
          more).
Proof.
  intros Hc Hp L N. apply String.eqb_neq in N. split.
  - unfold Host.version.
    erewrite Run.bind_ok; cycle 1.
    { rewrite (Run.adb_send_fresh _ _ Hc), (Run.opened_pending _ _ _ Hp).
      exact (Run.adb_send_focus _ _ (mkChannel _ _ _) _ _ status rest eq_refl L). }
    rewrite N. reflexivity.
  - unfold Host.devices, Host.autoclose.
    apply Run.bind_raise.
    erewrite Run.bind_ok; cycle 1.
    { rewrite (Run.adb_send_fresh _ _ Hc), (Run.opened_pending _ _ _ Hp).
      exact (Run.adb_send_focus _ _ (mkChannel _ _ _) _ _ status rest eq_refl L). }
    change "OKAY" with OKAY. rewrite N. destruct long; reflexivity.
Qed.

Lemma version_devices_reject_other_status_witness :
  Host.version (Host.__init__ example_context ["okay0004"])
  = (Raise NameError,
     mkWorld "localhost" 5037 (Some 0)
       [mkChannel "0004" ["000chost:version"] false] [])
  /\ Host.devices true (Host.__init__ example_context ["okay0004"])
     = (Raise NameError,
        mkWorld "localhost" 5037 (Some 0)
          [mkChannel "0004" ["000ehost:devices-l"] false] []).
Proof.
  exact (version_devices_reject_other_status true
           (Host.__init__ example_context ["okay0004"]) "okay" "0004" []
           eq_refl eq_refl eq_refl ltac:(discriminate)).
Defined.

(** ** Unanswered requests and listings *)

Module ListingMore.
Import Bytes BytesFacts Run.

Lemma splitn_short (n : nat) (s : string) :
  String.length s < n -> splitn n s = None.
Proof.
  revert s. induction n as [|n IH]; intros s H; [lia|].
  destruct s as [|c s]; [reflexivity|]. cbn [splitn].
  rewrite IH; [reflexivity | cbn in H; lia].
Qed.

Lemma recvn_eof_focus w pre ch pe (n : Z) :
  splitn (Z.to_nat n) (incoming ch) = None ->
  (h ← Host.c; Connection.recvn h n) (focus w pre ch pe)
  = (Raise EOFError, focus w pre ch pe).
Proof.
  intros E. erewrite bind_ok by apply c_focus. unfold Connection.recvn.
  rewrite on_chan_focus, E. cbn [fst snd]. now destruct ch.
Qed.

(** The loop goes through well-formed entries one round each. *)
Lemma list_while_records (ds : list dent) :
  forall (fuel : nat) (files : list string) w pre ch pe (rest : string),
    incoming ch = encode_dents ds +:+ rest ->
    Forall (fun d => (Z.of_nat (String.length (d_name d)) < 4294967296)%Z) ds ->
    Host.list_while (length ds + fuel) files (focus w pre ch pe)
    = Host.list_while fuel (files ++ kept_names ds)%list
        (focus w pre (mkChannel rest (sent ch) (closed ch)) pe).
Proof.
  induction ds as [|d ds IH]; intros fuel files w pre ch pe rest Hin Hwf.
  - cbn [encode_dents] in Hin. rewrite app_nil_l in Hin.
    unfold kept_names. cbn. rewrite List.app_nil_r.
    destruct ch as [i s c]. cbn in Hin |- *. now subst i.
  - cbn [length Nat.add Host.list_while].
    cbn [encode_dents] in Hin. unfold encode_dent in Hin.
    rewrite !app_assoc in Hin.
    unfold mbind at 1. unfold bind at 1.
    rewrite (recvn_focus _ _ _ _ 4 "DENT" _ Hin eq_refl).
    cbn [String.eqb Ascii.eqb Bool.eqb negb].
    unfold mbind at 1. unfold bind at 1.
    rewrite (u32_focus _ _ (mkChannel _ _ _) _ _ _ eq_refl).
    unfold mbind at 1. unfold bind at 1.
    rewrite (u32_focus _ _ (mkChannel _ _ _) _ _ _ eq_refl).
    unfold mbind at 1. unfold bind at 1.
    rewrite (u32_focus _ _ (mkChannel _ _ _) _ _ _ eq_refl).
    apply Forall_cons in Hwf as [Hd Hwf].
    assert (Hname :
      (n ← (h ← Host.c; Connection.u32 h); h ← Host.c; Connection.recvn h n)
        (focus w pre
           (mkChannel
              (p32 (Z.of_nat (String.length (d_name d))) +:+ d_name d
               +:+ encode_dents ds +:+ rest) (sent ch) (closed ch)) pe)
      = (Ok (d_name d),
         focus w pre
           (mkChannel (encode_dents ds +:+ rest) (sent ch) (closed ch)) pe)).
    { erewrite bind_ok by (apply (u32_focus _ _ (mkChannel _ _ _)); reflexivity).
      apply (recvn_focus _ _ (mkChannel _ _ _)); [reflexivity|].
      rewrite Z.mod_small by lia. now rewrite Nat2Z.id. }
    unfold mbind at 1. unfold bind at 1. cbn [sent closed] in Hname |- *.
    rewrite Hname. rewrite kept_names_cons.
    destruct (Host.ignored (d_name d)).
    + now rewrite (IH fuel files _ _ (mkChannel _ _ _) _ rest eq_refl Hwf).
    + rewrite (IH fuel (files ++ [d_name d])%list _ _ (mkChannel _ _ _) _ rest
                 eq_refl Hwf).
      cbn [sent closed]. now rewrite <- List.app_assoc.
Qed.

Lemma filter_Permutation_bool {A} (f : A -> bool) (l l' : list A) :
  l ≡ₚ l' -> List.filter f l ≡ₚ List.filter f l'.
Proof.
  induction 1 as [|x l l' _ IH|x y l|l l' l'' _ IH1 _ IH2]; cbn.
  - reflexivity.
  - destruct (f x); [now constructor | exact IH].
  - destruct (f x), (f y); try reflexivity. apply perm_swap.
  - now transitivity (List.filter f l').
Qed.

Lemma kept_names_Permutation (ds ds' : list dent) :
  ds ≡ₚ ds' -> kept_names ds ≡ₚ kept_names ds'.
Proof.
  intros H. unfold kept_names. apply filter_Permutation_bool.
  now apply Permutation_map.
Qed.

(** The sorted result depends on the names only, not on their order. *)
Lemma sorted_Permutation (l l' : list string) :
  l ≡ₚ l' -> sorted l = sorted l'.
Proof.
  intros H. apply (StronglySorted_unique String.le).
  - apply Sorting.sorted_ascending.
  - apply Sorting.sorted_ascending.
  - rewrite !Sorting.sorted_perm. exact H.
Qed.

End ListingMore.

(** X15.  When the server closes before it answers the transport
    selection with four bytes, every with-transport command raises
    [EOFError]: the transport frame is the only write, the command's
    own request is not sent, and the connection stays open, held by
    the [Host]. *)
Theorem with_transport_unanswered_raises (context : Context)
    (sh_string : string -> string) (m : method) (w : World)
    (script : string) (more : list string) :
  transport_scoped m = true ->
  _c w = None ->
  pending w = script :: more ->
  String.length script < 4 ->
  call context sh_string m w
  = (Raise EOFError,
     mkWorld (host w) (port w) (Some (length (conns w)))
       (conns w ++
        [mkChannel script
           [Message.__str__
              (Message.Message ("host:transport:" +:+ fmt_s (device context)))]
           false])
       more).
Proof.
  intros Hm Hc Hp Hlen.
  pose proof (ListingMore.splitn_short 4 script Hlen) as Hn.
  destruct m; try discriminate Hm; cbn [call];
    unfold Host.execute, Host.remount, Host.root, Host.unroot,
      Host.disable_verity, Host.enable_verity, Host.reconnect, Host.reboot,
      Host.reboot_bootloader, Host.send_recvall, Host.list, Host.write,
      Host.read;
    exact (Run.with_transport_eof context _ w script more Hc Hp Hn).
Qed.

Lemma with_transport_unanswered_raises_witness :
  call example_context no_quoting (Read "/data/x")
    (Host.__init__ example_context ["OK"])
  = (Raise EOFError,
     mkWorld "localhost" 5037 (Some 0)
       [mkChannel "OK" ["001chost:transport:emulator-5554"] false] []).
Proof.
  exact (with_transport_unanswered_raises example_context no_quoting
           (Read "/data/x") (Host.__init__ example_context ["OK"]) "OK" []
           eq_refl eq_refl eq_refl ltac:(cbn; lia)).
Defined.

(** X16.  A listing that stops without a closing tag is an error: when
    fewer than four bytes follow the last complete [DENT] record,
    [list] raises [EOFError] instead of returning the names read so
    far, and the connection stays open, held by the [Host]. *)
Theorem list_truncated_raises (context : Context) (path : string)
    (w : World) (s1 s2 : string) (ds : list dent) (tail_ : string)
    (more : list string) :
  _c w = None ->
  pending w = (s1 +:+ s2 +:+ encode_dents ds +:+ tail_) :: more ->
  String.length s1 = 4 -> s1 <> FAIL ->
  String.length s2 = 4 -> s2 <> FAIL ->
  String.length tail_ < 4 ->
  Forall (fun d => (Z.of_nat (String.length (d_name d)) < 4294967296)%Z) ds ->
  Host.list context path w
  = (Raise EOFError,
     mkWorld (host w) (port w) (Some (length (conns w)))
       (conns w ++
        [mkChannel tail_
           [transport_frame context None; sync_frame; list_request path]
           false])
       more).
Proof.
  intros Hc Hp L1 N1 L2 N2 Lt Hwf.
  assert (Hq : String.eqb FAIL s2 = false) by (apply String.eqb_neq; congruence).
  unfold Host.list.
  apply (Run.with_transport_raises context w s1 _ more Hc Hp L1 N1).
  erewrite Run.bind_ok by exact (Run.sync_answered context w s2 _ more L2).
  rewrite Hq.
  erewrite Run.bind_ok by apply Run.flat_focus.
  erewrite Run.bind_ok by apply Run.remaining_focus.
  cbn [incoming sent closed app].
  apply Run.bind_raise.
  pose proof (Run.length_encode_dents ds) as Hds.
  replace (S (String.length (encode_dents ds +:+ tail_)))
    with (length ds
          + S (String.length (encode_dents ds +:+ tail_) - length ds))
    by (rewrite BytesFacts.length_app; lia).
  rewrite (ListingMore.list_while_records ds _ _ _ _ (mkChannel _ _ _) _ tail_
             eq_refl Hwf).
  cbn [Host.list_while sent closed].
  apply Run.bind_raise.
  apply (ListingMore.recvn_eof_focus _ _ (mkChannel _ _ _)).
  apply ListingMore.splitn_short. exact Lt.
Qed.

Lemma list_truncated_raises_witness :
  Host.list example_context "/"
    (Host.__init__ example_context
       ["OKAY" +:+ "OKAY" +:+ encode_dents [mkDent 16877 4096 1 "etc"] +:+ "DO"])
  = (Raise EOFError,
     mkWorld "localhost" 5037 (Some 0)
       [mkChannel "DO"
          ["001chost:transport:emulator-5554"; "0005sync:"; list_request "/"]
          false] []).
Proof.
  exact (list_truncated_raises example_context "/"
           (Host.__init__ example_context
              ["OKAY" +:+ "OKAY" +:+ encode_dents [mkDent 16877 4096 1 "etc"]
               +:+ "DO"])
           "OKAY" "OKAY" [mkDent 16877 4096 1 "etc"] "DO" []
           eq_refl eq_refl eq_refl ltac:(discriminate) eq_refl
           ltac:(discriminate) ltac:(cbn; lia) ltac:(repeat constructor)).
Defined.

(** X17.  The result of [list] does not depend on the order in which
    the server sends the entries: two listings whose records are a
    rearrangement of each other give the same list of names. *)
Theorem list_order_independent (context : Context) (path : string)
    (w w' : World) (s1 s2 : string) (ds ds' : list dent)
    (endtag tail_ : string) (more more' : list string) :
  ds ≡ₚ ds' ->
  _c w = None -> _c w' = None ->
  pending w = (s1 +:+ s2 +:+ encode_dents ds +:+ endtag +:+ tail_) :: more ->
  pending w' = (s1 +:+ s2 +:+ encode_dents ds' +:+ endtag +:+ tail_) :: more' ->
  String.length s1 = 4 -> s1 <> FAIL ->
  String.length s2 = 4 -> s2 <> FAIL ->
  String.length endtag = 4 -> endtag <> "DENT" ->
  Forall (fun d => (Z.of_nat (String.length (d_name d)) < 4294967296)%Z) ds ->
  exists names : list string,
    fst (Host.list context path w) = Ok (VList names)
    /\ fst (Host.list context path w') = Ok (VList names).
Proof.
  intros Hperm Hc Hc' Hp Hp' L1 N1 L2 N2 Le Ne Hwf.
  assert (Hwf' : Forall (fun d => (Z.of_nat (String.length (d_name d))
                                   < 4294967296)%Z) ds').
  { rewrite Forall_forall in Hwf |- *. intros d Hd. apply Hwf.
    now rewrite Hperm. }
  exists (sorted (kept_names ds)). split.
  - now rewrite (Run.list_dents context w s1 s2 _ more path Hc Hp L1 N1 L2 N2
                   ds endtag tail_ eq_refl Le Ne Hwf).
  - rewrite (Run.list_dents context w' s1 s2 _ more' path Hc' Hp' L1 N1 L2 N2
               ds' endtag tail_ eq_refl Le Ne Hwf').
    cbn [fst]. do 2 f_equal. symmetry.
    apply ListingMore.sorted_Permutation.
    now apply ListingMore.kept_names_Permutation.
Qed.

Lemma list_order_independent_witness :
  exists names : list string,
    fst (Host.list example_context "/"
           (Host.__init__ example_context
              ["OKAY" +:+ "OKAY"
               +:+ encode_dents [mkDent 1 2 3 "b"; mkDent 4 5 6 "a"]
               +:+ "DONE" +:+ ""]))
    = Ok (VList names)
    /\ fst (Host.list example_context "/"
              (Host.__init__ example_context
                 ["OKAY" +:+ "OKAY"
                  +:+ encode_dents [mkDent 4 5 6 "a"; mkDent 1 2 3 "b"]
                  +:+ "DONE" +:+ ""]))
       = Ok (VList names).
Proof.
  exact (list_order_independent example_context "/"
           (Host.__init__ example_context
              ["OKAY" +:+ "OKAY"
               +:+ encode_dents [mkDent 1 2 3 "b"; mkDent 4 5 6 "a"]
               +:+ "DONE" +:+ ""])
           (Host.__init__ example_context
              ["OKAY" +:+ "OKAY"
               +:+ encode_dents [mkDent 4 5 6 "a"; mkDent 1 2 3 "b"]
               +:+ "DONE" +:+ ""])
           "OKAY" "OKAY" [mkDent 1 2 3 "b"; mkDent 4 5 6 "a"]
           [mkDent 4 5 6 "a"; mkDent 1 2 3 "b"] "DONE" "" [] []
           (perm_swap _ _ []) eq_refl eq_refl eq_refl eq_refl
           eq_refl ltac:(discriminate) eq_refl ltac:(discriminate)
           eq_refl ltac:(discriminate) ltac:(repeat constructor)).
Defined.

(** X18.  The [c] property opens a connection only when the [Host]
    holds none: it always returns a connection the [Host] then holds,
    asking again returns the same one and changes nothing, and a
    connection already held is returned as it is, nothing being
    opened. *)
Theorem c_is_lazy (w : World) :
  exists (h : handle) (w1 : World),
    Host.c w = (Ok h, w1)
    /\ _c w1 = Some h
    /\ Host.c w1 = (Ok h, w1)
    /\ (forall h0 : handle, _c w = Some h0 -> h = h0 /\ w1 = w)
    /\ (_c w = None ->
        h = length (conns w) /\ length (conns w1) = S (length (conns w))).
Proof.
  destruct (_c w) as [h0|] eqn:Ec.
  - exists h0, w.
    assert (H : Host.c w = (Ok h0, w)).
    { unfold Host.c, mbind, bind, get_c. now rewrite Ec. }
    split; [exact H|]. split; [exact Ec|]. split; [exact H|].
    split; [|discriminate].
    intros h' E. split; [congruence | reflexivity].
  - exists (length (conns w)), (opened w).
    split; [exact (Run.c_fresh w Ec)|]. split; [reflexivity|].
    split; [reflexivity|]. split; [discriminate|].
    intros _. split; [reflexivity|].
    unfold opened, focus. cbn [conns]. rewrite length_app. cbn. lia.
Qed.

(** X19.  The outcomes of [execute], whatever the server delivers on
    the one connection the call opens: it hands the connection over,
    open, when [exec:] is answered [OKAY]; it returns [None] with the
    connection closed; or it raises [EOFError] or [NameError] with the
    connection open and still held by the [Host].  It never returns
    leaving an open connection that nobody holds. *)
Theorem execute_outcomes (context : Context) (sh_string : string -> string)
    (argv : argv_t) (w : World) (script : string) (more : list string) :
  _c w = None ->
  pending w = script :: more ->
  exists (r : result value) (w' : World) (ch : Channel),
    Host.execute context sh_string argv w = (r, w')
    /\ conns w' = (conns w ++ [ch])%list
    /\ ((r = Ok (VConn (length (conns w)))
         /\ closed ch = false /\ _c w' = None)
        \/ (r = Ok VNone /\ closed ch = true /\ _c w' = None)
        \/ ((r = Raise EOFError \/ r = Raise NameError)
            /\ closed ch = false /\ _c w' = Some (length (conns w)))).
Proof.
  intros Hc Hp.
  destruct (RunMore.splitn_drop script) as [(s1 & r1 & _ & -> & L1) | E1].
  - destruct (String.eqb_spec s1 FAIL) as [-> | N1].
    + eexists _, _, _. split;
        [unfold Host.execute; apply (Run.with_transport_fail _ _ _ _ _ Hc Hp)
        |split; [reflexivity | right; right; repeat split; now right]].
    + destruct (RunMore.splitn_drop r1) as [(s2 & r2 & _ & -> & L2) | E2].
      * destruct (String.eqb_spec s2 FAIL) as [-> | N2].
        -- eexists _, _, _. split;
             [apply (Run.execute_second_fail context sh_string argv w s1 more
                       Hc L1 N1 r2 Hp)
             |split; [reflexivity | right; right; repeat split; now right]].
        -- destruct (RunMore.splitn_drop r2) as [(s3 & r3 & _ & E3 & L3) | E3].
           ++ destruct (String.eqb_spec s3 OKAY) as [-> | N3].
              ** eexists _, _, _. split;
                   [apply (Run.execute_okay context sh_string argv w s1 s2 r2
                             more Hc Hp L1 L2 N1 N2 r3 E3)
                   |split; [reflexivity | left; now repeat split]].
              ** eexists _, _, _. split;
                   [apply (Run.execute_refused context sh_string argv w s1 s2
                             r2 more Hc Hp L1 L2 N1 N2 s3 r3 E3 L3 N3)
                   |split; [reflexivity | right; left; now repeat split]].
           ++ eexists _, _, _. split;
                [apply (Run.execute_eof context sh_string argv w s1 s2 r2
                          more Hc Hp L1 L2 N1 N2 E3)
                |split; [reflexivity | right; right; repeat split; now left]].
      * eexists _, _, _. split;
          [apply (Run.execute_second_eof context sh_string argv w s1 more
                    Hc L1 N1 r1 Hp E2)
          |split; [reflexivity | right; right; repeat split; now left]].
  - eexists _, _, _. split;
      [unfold Host.execute; apply (Run.with_transport_eof _ _ _ _ _ Hc Hp E1)
      |split; [reflexivity | right; right; repeat split; now left]].
Qed.

Lemma execute_outcomes_witness :
  exists (r : result value) (w' : World) (ch : Channel),
    Host.execute example_context no_quoting (ArgList ["ls"; "/"])
      (Host.__init__ example_context ["OKAYOKAYOK"]) = (r, w')
    /\ conns w' = [ch]
    /\ ((r = Ok (VConn 0) /\ closed ch = false /\ _c w' = None)
        \/ (r = Ok VNone /\ closed ch = true /\ _c w' = None)
        \/ ((r = Raise EOFError \/ r = Raise NameError)
            /\ closed ch = false /\ _c w' = Some 0)).
Proof.
  exact (execute_outcomes example_context no_quoting (ArgList ["ls"; "/"])
           (Host.__init__ example_context ["OKAYOKAYOK"]) "OKAYOKAYOK" []
           eq_refl eq_refl).
Defined.
